(** * questionary: the Question lifecycle wrapper and its utility layer

    A shallow embedding of [questionary/question.py] and
    [questionary/utils.py].  Python objects live in an explicit store, the
    terminal engine (prompt_toolkit) is observed through a trace of the calls
    made to it, and exceptions are an outcome of every computation. *)

From Stdlib Require Import ZArith Ascii String List Bool Lia.
From stdpp Require Import gmap strings list fin_maps.

Local Open Scope Z_scope.

(** ** Python values, exceptions and outcomes *)

(** The values that cross the Question boundary: answers, defaults and the
    dynamically typed [exit_on_kbi] argument.  [VObj] is any other object,
    known by its identity only. *)
Inductive PyVal : Type :=
  | VNone
  | VBool (b : bool)
  | VInt (n : Z)
  | VStr (s : string)
  | VObj (id : nat).

(** Exceptions, by the class an [except] clause matches on.  [exit(code)]
    raises [SystemExit(code)]; it is what terminates the process. *)
Inductive PyExc : Type :=
  | KeyboardInterrupt
  | SystemExit (code : PyVal)
  | OtherError (cls : string).

Inductive Outcome (A : Type) : Type :=
  | Returned (v : A)
  | Raised (e : PyExc).
Arguments Returned {A} v.
Arguments Raised {A} e.

(** [isinstance(x, bool)] and [isinstance(x, int)]: [bool] is a subclass of
    [int] in Python. *)
Definition isinstance_bool (x : PyVal) : bool :=
  match x with VBool _ => true | _ => false end.

Definition isinstance_int (x : PyVal) : bool :=
  match x with VBool _ | VInt _ => true | _ => false end.

(** [x is True] *)
Definition is_True (x : PyVal) : bool :=
  match x with VBool true => true | _ => false end.

(** [except KeyboardInterrupt] *)
Definition is_KeyboardInterrupt (e : PyExc) : bool :=
  match e with KeyboardInterrupt => true | _ => false end.

(** ** The terminal engine, as seen from this package *)

(** Calls made to prompt_toolkit and to [sys.stdout], in order. *)
Inductive Event : Type :=
  | EvRun (app : nat)              (* application.run() *)
  | EvRunAsync (app : nat)         (* application.run_async() *)
  | EvAwait (app : nat)            (* await on the result of run_async() *)
  | EvPatchEnter                   (* entering patch_stdout() *)
  | EvPatchExit                    (* leaving patch_stdout() *)
  | EvFlush                        (* sys.stdout.flush() *)
  | EvUseAsyncioEventLoop.         (* pt.eventloop.use_asyncio_event_loop() *)

(** The wrapped program is opaque: all that is known of an execution is its
    outcome and the text it wrote, both of which may depend on everything
    that happened before. *)
Record Application : Type := {
  app_id : nat;
  run : list Event -> Outcome PyVal * string;
  run_async : list Event -> Outcome PyVal * string;
}.

(** instances of [class Question] *)
Record Question : Type := {
  application : Application;
  should_skip_question : bool;
  default : PyVal;
}.

(** The state of the process: the installed prompt_toolkit version, the
    module global [utils.ACTIVATED_ASYNC_MODE], the store of Question
    objects, the text written to standard output and the engine trace. *)
Record World : Type := {
  ptk_version : string;
  ACTIVATED_ASYNC_MODE : bool;
  heap : gmap nat Question;
  stdout : string;
  trace : list Event;
}.

(** [ACTIVATED_ASYNC_MODE = False] at import time; nothing asked or printed. *)
Definition initial_world (version : string) : World :=
  {| ptk_version := version; ACTIVATED_ASYNC_MODE := false;
     heap := ∅; stdout := ""; trace := [] |}.

Definition set_flag (b : bool) (w : World) : World :=
  {| ptk_version := ptk_version w; ACTIVATED_ASYNC_MODE := b;
     heap := heap w; stdout := stdout w; trace := trace w |}.

Definition set_heap (h : gmap nat Question) (w : World) : World :=
  {| ptk_version := ptk_version w; ACTIVATED_ASYNC_MODE := ACTIVATED_ASYNC_MODE w;
     heap := h; stdout := stdout w; trace := trace w |}.

Definition write_stdout (s : string) (w : World) : World :=
  {| ptk_version := ptk_version w; ACTIVATED_ASYNC_MODE := ACTIVATED_ASYNC_MODE w;
     heap := heap w; stdout := stdout w +:+ s; trace := trace w |}.

Definition log_event (ev : Event) (w : World) : World :=
  {| ptk_version := ptk_version w; ACTIVATED_ASYNC_MODE := ACTIVATED_ASYNC_MODE w;
     heap := heap w; stdout := stdout w; trace := trace w ++ [ev] |}.

(** ** Computations: state passing with exceptions *)

Definition M (A : Type) : Type := World -> Outcome A * World.

Definition ret {A} (v : A) : M A := fun w => (Returned v, w).

Definition raise {A} (e : PyExc) : M A := fun w => (Raised e, w).

Definition bind {A B} (m : M A) (k : A -> M B) : M B :=
  fun w =>
    match m w with
    | (Returned v, w') => k v w'
    | (Raised e, w') => (Raised e, w')
    end.

Notation "'do' x <- m ; k" := (bind m (fun x => k))
  (at level 10, x name, m at level 100, k at level 200).
Notation "'exec' m ; k" := (bind m (fun _ => k))
  (at level 10, m at level 100, k at level 200).

(** [try: body  except <caught>: handler] *)
Definition try_except {A} (body : M A) (caught : PyExc -> bool) (handler : M A) : M A :=
  fun w =>
    match body w with
    | (Returned v, w') => (Returned v, w')
    | (Raised e, w') => if caught e then handler w' else (Raised e, w')
    end.

(** [with ctx: body], for a context manager whose exit does not swallow
    exceptions: the exit runs however the body ends. *)
Definition with_context {A} (enter exit : Event) (body : M A) : M A :=
  fun w =>
    match body (log_event enter w) with
    | (o, w') => (o, log_event exit w')
    end.

Definition get {A} (f : World -> A) : M A := fun w => (Returned (f w), w).

Definition modify (f : World -> World) : M unit := fun w => (Returned tt, f w).

(** ** Builtins *)

Definition nl : string := String (ascii_of_nat 10) EmptyString.

(** [print(s)]: the text, then the line end. *)
Definition print (s : string) : M unit := modify (write_stdout (s +:+ nl)).

(** [exit(code)] *)
Definition exit {A} (code : PyVal) : M A := raise (SystemExit code).

(** [sys.stdout.flush()] *)
Definition stdout_flush : M unit := modify (log_event EvFlush).

(** [prompt_toolkit.patch_stdout.patch_stdout()] as a context manager *)
Definition patch_stdout_context {A} (body : M A) : M A :=
  with_context EvPatchEnter EvPatchExit body.

(** [application.run()]: runs the program to its outcome. *)
Definition Application_run (app : Application) : M PyVal :=
  fun w =>
    let '(o, out) := run app (trace w) in
    (o, write_stdout out (log_event (EvRun (app_id app)) w)).

(** [application.run_async()]: hands back an awaitable, the program has not
    run yet. *)
Definition Application_run_async (app : Application) : M Application :=
  exec modify (log_event (EvRunAsync (app_id app))); ret app.

(** [r.to_asyncio_future()] of prompt_toolkit 2: the same result, as an
    asyncio future. *)
Definition to_asyncio_future (r : Application) : Application := r.

(** [await r] *)
Definition await (r : Application) : M PyVal :=
  fun w =>
    let '(o, out) := run_async r (trace w) in
    (o, write_stdout out (log_event (EvAwait (app_id r)) w)).

(** ** utils.py *)

(** [inspect.signature(func).parameters]: the parameters of a callable in
    declaration order.  [default = None] is [inspect.Parameter.empty]. *)
Module inspect.

Inductive ParameterKind : Type :=
  | POSITIONAL_ONLY
  | POSITIONAL_OR_KEYWORD
  | VAR_POSITIONAL
  | KEYWORD_ONLY
  | VAR_KEYWORD.

(** [inspect.Parameter] *)
Record Param : Type := {
  name : string;
  default : option PyVal;
  kind : ParameterKind;
}.

Definition is_POSITIONAL_OR_KEYWORD (k : ParameterKind) : bool :=
  match k with POSITIONAL_OR_KEYWORD => true | _ => false end.

End inspect.

(** A callable, as far as [inspect.signature] describes it. *)
Definition Callable : Type := list inspect.Param.

(** [ptk_version.startswith("3.")] *)
Definition is_prompt_toolkit_3 : M bool :=
  get (fun w => String.prefix "3." (ptk_version w)).

Definition default_values_of (func : Callable) : list string :=
  map inspect.name
    (List.filter
       (fun v => match inspect.default v with Some _ => true | None => false end
                 || negb (inspect.is_POSITIONAL_OR_KEYWORD (inspect.kind v)))
       func).

Definition arguments_of (func : Callable) : list string :=
  map inspect.name func.

(** [{k: v for k, v in kwargs.items() if k in possible_arguments}] *)
Definition used_kwargs (kwargs : gmap string PyVal) (func : Callable)
  : gmap string PyVal :=
  let possible_arguments := arguments_of func in
  filter (fun kv : string * PyVal => kv.1 ∈ possible_arguments) kwargs.

(** The slice [l[:stop]]: a negative [stop] counts from the end, and both
    ends are clamped to the list. *)
Definition slice_until {A} (l : list A) (stop : Z) : list A :=
  let len := Z.of_nat (length l) in
  let stop' := if stop <? 0 then Z.max 0 (len + stop) else Z.min stop len in
  take (Z.to_nat stop') l.

Definition required_arguments (func : Callable) : list string :=
  let defaults := default_values_of func in
  let args := arguments_of func in
  match defaults with
  | [] => args
  | _ :: _ => slice_until args (- Z.of_nat (length defaults))
  end.

Definition missing_arguments (func : Callable) (argdict : gmap string PyVal)
  : gset string :=
  list_to_set (required_arguments func) ∖ dom argdict.

Definition activate_prompt_toolkit_async_mode : M PyVal :=
  do ptk3 <- is_prompt_toolkit_3;
  exec (if negb ptk3
        then modify (log_event EvUseAsyncioEventLoop)
        else ret tt);
  exec modify (set_flag true);
  ret VNone.

(** ** question.py *)

(** Arguments that have a default in the source are passed explicitly here:
    [patch_stdout=False], [raise_on_kbi=False], [exit_on_kbi=False] and
    [kbi_msg=DEFAULT_KBI_MESSAGE], a text constant of [questionary.constants].

    [kbi_msg] is [str | None]; [exit_on_kbi] is annotated [bool] but tested
    for being an [int], so it is a value of any type. *)
Definition handle_kbi (kbi_msg : option string) (raise_on_kbi : bool)
    (exit_on_kbi : PyVal) : M PyVal :=
  if is_True exit_on_kbi then
    exit (VInt 0)
  else if negb (isinstance_bool exit_on_kbi) && isinstance_int exit_on_kbi then
    exit exit_on_kbi
  else if raise_on_kbi then
    raise KeyboardInterrupt
  else
    exec (match kbi_msg with
          | Some (String _ _ as msg) => print (nl +:+ msg +:+ nl)
          | Some EmptyString | None => ret tt
          end);
    ret VNone.

(** Reading the object behind a reference.  References come from
    [Question_init] and objects are never freed, so the error case is not
    reached by a program. *)
Definition deref (self : nat) : M Question :=
  fun w =>
    match heap w !! self with
    | Some q => (Returned q, w)
    | None => (Raised (OtherError "ReferenceError"), w)
    end.

(** [Question.__init__], with the allocation of the object. *)
Definition Question_init (app : Application) : M nat :=
  fun w =>
    let self := fresh (dom (heap w)) in
    (Returned self,
     set_heap (<[self := {| application := app;
                            should_skip_question := false;
                            default := VNone |}]> (heap w)) w).

Definition unsafe_ask (self : nat) (patch_stdout : bool) : M PyVal :=
  do q <- deref self;
  if should_skip_question q then
    ret (default q)
  else if patch_stdout then
    patch_stdout_context (Application_run (application q))
  else
    Application_run (application q).

Definition ask (self : nat) (patch_stdout : bool) (kbi_msg : option string)
    (raise_on_kbi : bool) (exit_on_kbi : PyVal) : M PyVal :=
  try_except
    (unsafe_ask self patch_stdout)
    is_KeyboardInterrupt
    (handle_kbi kbi_msg raise_on_kbi exit_on_kbi).

(** [skip_if] mutates the object in place and hands back the reference it
    was called on. *)
Definition skip_if (self : nat) (condition : bool) (default : PyVal) : M nat :=
  do q <- deref self;
  exec modify (fun w =>
         set_heap (<[self := {| application := application q;
                                should_skip_question := condition;
                                default := default |}]> (heap w)) w);
  ret self.

(** The call [q.skip_if(condition)] or [q.skip_if(condition, default)]: the
    parameter is declared [default: Any = None]. *)
Definition call_skip_if (self : nat) (condition : bool) (default : option PyVal)
  : M nat :=
  skip_if self condition (match default with Some d => d | None => VNone end).

Definition unsafe_ask_async (self : nat) (patch_stdout : bool) : M PyVal :=
  do q <- deref self;
  if should_skip_question q then
    ret (default q)
  else
    do activated <- get ACTIVATED_ASYNC_MODE;
    exec (if negb activated
          then activate_prompt_toolkit_async_mode
          else ret VNone);
    do r <- (if patch_stdout
             then patch_stdout_context (Application_run_async (application q))
             else Application_run_async (application q));
    do ptk3 <- is_prompt_toolkit_3;
    if ptk3 then await r else await (to_asyncio_future r).

Definition ask_async (self : nat) (patch_stdout : bool) (kbi_msg : option string)
    (raise_on_kbi : bool) (exit_on_kbi : PyVal) : M PyVal :=
  try_except
    (exec stdout_flush; unsafe_ask_async self patch_stdout)
    is_KeyboardInterrupt
    (handle_kbi kbi_msg raise_on_kbi exit_on_kbi).

(** [print_formatted_text(FormattedText([...]), style=...)]: the three
    fragments, then the line end.  Styles change colours only and are not
    part of the text written. *)
Definition print_question_answer (question answer : string) : M PyVal :=
  exec print ("?" +:+ (" " +:+ question +:+ " ") +:+ (answer +:+ " "));
  ret VNone.

(** ** Observations used in the statements *)

(** Does this engine call execute the program [id]? *)
Definition executes (id : nat) (ev : Event) : bool :=
  match ev with
  | EvRun a | EvRunAsync a | EvAwait a => Nat.eqb a id
  | _ => false
  end.

(** The call counter of a stub program. *)
Definition run_count (id : nat) (tr : list Event) : nat :=
  length (List.filter (executes id) tr).

(** A stub program: always the same outcome and the same output. *)
Definition stub_app (id : nat) (result : Outcome PyVal) (out : string) : Application :=
  {| app_id := id;
     run := fun _ => (result, out);
     run_async := fun _ => (result, out) |}.

(** A stub that is interrupted the first time it runs and answers after. *)
Definition flaky_app (id : nat) (answer : PyVal) : Application :=
  let behaviour := fun tr : list Event =>
    match run_count id tr with
    | O => (Raised KeyboardInterrupt, "")
    | S _ => (Returned answer, "")
    end in
  {| app_id := id; run := behaviour; run_async := behaviour |}.

(** Method calls on one Question object, and their effect on the process
    when the caller carries on whatever the outcome. *)
Inductive Call : Type :=
  | CallAsk (patch_stdout : bool) (kbi_msg : option string)
            (raise_on_kbi : bool) (exit_on_kbi : PyVal)
  | CallUnsafeAsk (patch_stdout : bool)
  | CallAskAsync (patch_stdout : bool) (kbi_msg : option string)
                 (raise_on_kbi : bool) (exit_on_kbi : PyVal)
  | CallUnsafeAskAsync (patch_stdout : bool)
  | CallSkipIf (condition : bool) (default : PyVal).

Definition perform (self : nat) (c : Call) (w : World) : World :=
  match c with
  | CallAsk po msg r e => snd (ask self po msg r e w)
  | CallUnsafeAsk po => snd (unsafe_ask self po w)
  | CallAskAsync po msg r e => snd (ask_async self po msg r e w)
  | CallUnsafeAskAsync po => snd (unsafe_ask_async self po w)
  | CallSkipIf c d => snd (skip_if self c d w)
  end.

Definition perform_all (self : nat) (cs : list Call) (w : World) : World :=
  fold_left (fun w c => perform self c w) cs w.

(** A later [skip_if] that would switch skipping off. *)
Definition reenables (c : Call) : bool :=
  match c with CallSkipIf false _ => true | _ => false end.

(** Every operation of the two modules, as a step of the process. *)
Inductive Operation : Type :=
  | OpMethod (self : nat) (c : Call)
  | OpInit (app : Application)
  | OpHandleKbi (kbi_msg : option string) (raise_on_kbi : bool) (exit_on_kbi : PyVal)
  | OpActivate
  | OpIsPromptToolkit3
  | OpPrintQuestionAnswer (question answer : string).

Definition step (op : Operation) (w : World) : World :=
  match op with
  | OpMethod self c => perform self c w
  | OpInit app => snd (Question_init app w)
  | OpHandleKbi msg r e => snd (handle_kbi msg r e w)
  | OpActivate => snd (activate_prompt_toolkit_async_mode w)
  | OpIsPromptToolkit3 => snd (is_prompt_toolkit_3 w)
  | OpPrintQuestionAnswer q a => snd (print_question_answer q a w)
  end.

(** Number of places at which [pat] occurs in [s]. *)
Fixpoint occurrences (pat s : string) : nat :=
  match s with
  | EmptyString => if String.prefix pat EmptyString then 1%nat else 0%nat
  | String _ rest =>
      ((if String.prefix pat s then 1 else 0) + occurrences pat rest)%nat
  end.

(** The wording of the specification for [required_arguments]: the list
    without its [n] trailing elements. *)
Definition without_trailing {A} (n : nat) (l : list A) : list A :=
  reverse (drop n (reverse l)).

(** The object [self] refers to after [skip_if]. *)
Definition skipped (q : Question) (condition : bool) (d : PyVal) : Question :=
  {| application := application q;
     should_skip_question := condition;
     default := d |}.

(** ** Sample programs and worlds *)

(** One object in the store, wrapping a stub that answers ["yes"]. *)
Definition world_with (q : Question) : World :=
  set_heap {[ 0%nat := q ]} (initial_world "3.0.36").

Definition skipped_question : Question :=
  {| application := stub_app 7 (Returned (VStr "yes")) "";
     should_skip_question := true;
     default := VStr "fallback" |}.

Definition plain_question : Question :=
  {| application := stub_app 7 (Returned (VStr "yes")) "";
     should_skip_question := false;
     default := VNone |}.

Definition interrupted_question : Question :=
  {| application := stub_app 7 (Raised KeyboardInterrupt) "";
     should_skip_question := false;
     default := VNone |}.

Definition failing_question : Question :=
  {| application := stub_app 7 (Raised (OtherError "ValueError")) "";
     should_skip_question := false;
     default := VNone |}.

(** [def f(a, b): ...] *)
Definition f_ab : Callable :=
  [ {| inspect.name := "a"; inspect.default := None;
       inspect.kind := inspect.POSITIONAL_OR_KEYWORD |};
    {| inspect.name := "b"; inspect.default := None;
       inspect.kind := inspect.POSITIONAL_OR_KEYWORD |} ].

(** [def g(a, b=2, *args, c, **kw): ...] *)
Definition g_mixed : Callable :=
  [ {| inspect.name := "a"; inspect.default := None;
       inspect.kind := inspect.POSITIONAL_OR_KEYWORD |};
    {| inspect.name := "b"; inspect.default := Some (VInt 2);
       inspect.kind := inspect.POSITIONAL_OR_KEYWORD |};
    {| inspect.name := "args"; inspect.default := None;
       inspect.kind := inspect.VAR_POSITIONAL |};
    {| inspect.name := "c"; inspect.default := None;
       inspect.kind := inspect.KEYWORD_ONLY |};
    {| inspect.name := "kw"; inspect.default := None;
       inspect.kind := inspect.VAR_KEYWORD |} ].

(** Calls of [use_asyncio_event_loop] in a trace. *)
Definition activations (tr : list Event) : nat :=
  length (List.filter
            (fun ev => match ev with EvUseAsyncioEventLoop => true | _ => false end)
            tr).

(** A computation that never switches the async-mode flag off. *)
Definition keeps_flag {A} (m : M A) : Prop :=
  forall w, ACTIVATED_ASYNC_MODE w = true ->
            ACTIVATED_ASYNC_MODE (snd (m w)) = true.

(** A process on prompt_toolkit 2 with one Question that is not skipped. *)
Definition world_ptk2 : World :=
  set_heap {[ 0%nat := plain_question ]} (initial_world "2.0.10").

(** The same process with a Question that is skipped. *)
Definition world_ptk2_skipped : World :=
  set_heap {[ 0%nat := skipped_question ]} (initial_world "2.0.10").

(** The state in which a non-skipped [unsafe_ask_async] awaits the program:
    activation if the flag is unset, then the call of [run_async]. *)
Definition before_await (q : Question) (po : bool) (w : World) : World :=
  let w1 := if ACTIVATED_ASYNC_MODE w
            then w
            else snd (activate_prompt_toolkit_async_mode w) in
  let started := log_event (EvRunAsync (app_id (application q))) in
  if po
  then log_event EvPatchExit (started (log_event EvPatchEnter w1))
  else started w1.

(** ** Further observations *)

(** A computation that leaves the observation [f] of the process as it
    found it. *)
Definition preserves {A B} (f : World -> B) (m : M A) : Prop :=
  forall w, f (snd (m w)) = f w.

(** The synchronous entry points. *)
Definition is_sync_ask (c : Call) : bool :=
  match c with CallAsk _ _ _ _ | CallUnsafeAsk _ => true | _ => false end.

Definition is_skip_if (c : Call) : bool :=
  match c with CallSkipIf _ _ => true | _ => false end.

(** Method calls on several objects, one after the other. *)
Definition perform_each (cs : list (nat * Call)) (w : World) : World :=
  fold_left (fun w sc => perform (fst sc) (snd sc) w) cs w.

(** The engine hook has been called at most once, and only if the flag is
    set. *)
Definition activated_at_most_once (w : World) : Prop :=
  (activations (trace w) <= if ACTIVATED_ASYNC_MODE w then 1 else 0)%nat.

(** The engine calls of the activation that an asynchronous ask performs. *)
Definition activation_events (w : World) : list Event :=
  if ACTIVATED_ASYNC_MODE w then []
  else if String.prefix "3." (ptk_version w) then []
  else [EvUseAsyncioEventLoop].

(** A parameter that [default_values_of] lists. *)
Definition counts_as_defaulted (v : inspect.Param) : bool :=
  match inspect.default v with Some _ => true | None => false end
  || negb (inspect.is_POSITIONAL_OR_KEYWORD (inspect.kind v)).

(** Two objects in the store: one skipped, one around an interrupted
    program. *)
Definition world_two : World :=
  set_heap {[ 0%nat := skipped_question; 1%nat := interrupted_question ]}
    (initial_world "3.0.36").

(** * Properties *)

(** ** Unfolding the computations *)

Ltac unfold_M :=
  unfold ask, ask_async, unsafe_ask, unsafe_ask_async, skip_if, call_skip_if,
    handle_kbi, activate_prompt_toolkit_async_mode, is_prompt_toolkit_3,
    print_question_answer, Question_init, deref,
    patch_stdout_context, with_context, try_except,
    Application_run, Application_run_async, await, to_asyncio_future,
    stdout_flush, print, exit, modify, get, bind, ret, raise in *.

Lemma deref_ok (w : World) (self : nat) (q : Question) :
  heap w !! self = Some q -> deref self w = (Returned q, w).
Proof. intros H. unfold deref. now rewrite H. Qed.

Lemma unsafe_ask_skip (w : World) (self : nat) (q : Question) (po : bool) :
  heap w !! self = Some q ->
  should_skip_question q = true ->
  unsafe_ask self po w = (Returned (default q), w).
Proof.
  intros Hq Hs. unfold unsafe_ask, bind. rewrite (deref_ok _ _ _ Hq), Hs.
  reflexivity.
Qed.

Lemma unsafe_ask_run (w : World) (self : nat) (q : Question) :
  heap w !! self = Some q ->
  should_skip_question q = false ->
  unsafe_ask self false w = Application_run (application q) w.
Proof.
  intros Hq Hs. unfold unsafe_ask, bind. rewrite (deref_ok _ _ _ Hq), Hs.
  reflexivity.
Qed.

Lemma unsafe_ask_run_patched (w : World) (self : nat) (q : Question) :
  heap w !! self = Some q ->
  should_skip_question q = false ->
  unsafe_ask self true w =
    patch_stdout_context (Application_run (application q)) w.
Proof.
  intros Hq Hs. unfold unsafe_ask, bind. rewrite (deref_ok _ _ _ Hq), Hs.
  reflexivity.
Qed.

Lemma ask_returned (w w' : World) (self : nat) (po : bool) (v : PyVal)
    (msg : option string) (r : bool) (e : PyVal) :
  unsafe_ask self po w = (Returned v, w') ->
  ask self po msg r e w = (Returned v, w').
Proof. intros H. unfold ask, try_except. now rewrite H. Qed.

Lemma ask_not_caught (w w' : World) (self : nat) (po : bool) (x : PyExc)
    (msg : option string) (r : bool) (e : PyVal) :
  unsafe_ask self po w = (Raised x, w') ->
  is_KeyboardInterrupt x = false ->
  ask self po msg r e w = (Raised x, w').
Proof. intros H Hx. unfold ask, try_except. now rewrite H, Hx. Qed.

Lemma ask_caught (w w' : World) (self : nat) (po : bool)
    (msg : option string) (r : bool) (e : PyVal) :
  unsafe_ask self po w = (Raised KeyboardInterrupt, w') ->
  ask self po msg r e w = handle_kbi msg r e w'.
Proof. intros H. unfold ask, try_except. now rewrite H. Qed.

(** ** C1: the skip path and the run path *)

(** C1.  With [skip] set, [ask] and [unsafe_ask] return the stored default
    and leave the whole process state as it was, so the call counter of the
    wrapped program does not move.  With [skip] unset, whatever the wrapped
    program returns (plain or under [patch_stdout]) is what [ask] and
    [unsafe_ask] return. *)
Theorem C1_ask_skip_or_run (w : World) (self : nat) (q : Question)
    (Hself : heap w !! self = Some q) :
  (should_skip_question q = true ->
   forall po msg r e,
     ask self po msg r e w = (Returned (default q), w)
     /\ unsafe_ask self po w = (Returned (default q), w)
     /\ run_count (app_id (application q)) (trace (snd (ask self po msg r e w)))
        = run_count (app_id (application q)) (trace w))
  /\ (should_skip_question q = false ->
      forall msg r e v w',
        (Application_run (application q) w = (Returned v, w') ->
         ask self false msg r e w = (Returned v, w')
         /\ unsafe_ask self false w = (Returned v, w'))
        /\ (patch_stdout_context (Application_run (application q)) w = (Returned v, w') ->
            ask self true msg r e w = (Returned v, w')
            /\ unsafe_ask self true w = (Returned v, w'))).
Proof.
  split.
  - intros Hs po msg r e.
    pose proof (unsafe_ask_skip w self q po Hself Hs) as Hu.
    rewrite (ask_returned _ _ _ _ _ msg r e Hu). auto.
  - intros Hs msg r e v w'. split; intros Hrun.
    + rewrite <- (unsafe_ask_run w self q Hself Hs) in Hrun.
      split; [now apply ask_returned | exact Hrun].
    + rewrite <- (unsafe_ask_run_patched w self q Hself Hs) in Hrun.
      split; [now apply ask_returned | exact Hrun].
Qed.

Lemma C1_witness :
  fst (ask 0 false None false (VBool false) (world_with skipped_question))
    = Returned (VStr "fallback")
  /\ fst (ask 0 false None false (VBool false) (world_with plain_question))
    = Returned (VStr "yes").
Proof.
  split.
  - pose proof (C1_ask_skip_or_run (world_with skipped_question) 0
                  skipped_question eq_refl) as [H _].
    destruct (H eq_refl false None false (VBool false)) as [Ha _].
    rewrite Ha. reflexivity.
  - pose proof (C1_ask_skip_or_run (world_with plain_question) 0
                  plain_question eq_refl) as [_ H].
    destruct (H eq_refl None false (VBool false) (VStr "yes")
                (snd (Application_run (application plain_question)
                        (world_with plain_question)))) as [[Ha _] _].
    + reflexivity.
    + rewrite Ha. reflexivity.
Defined.

(** ** C2: precedence of the interrupt policy *)

Lemma handle_kbi_exit_True (msg : option string) (r : bool) (w : World) :
  handle_kbi msg r (VBool true) w = (Raised (SystemExit (VInt 0)), w).
Proof. reflexivity. Qed.

Lemma handle_kbi_exit_int (msg : option string) (r : bool) (n : Z) (w : World) :
  handle_kbi msg r (VInt n) w = (Raised (SystemExit (VInt n)), w).
Proof. reflexivity. Qed.

Lemma handle_kbi_no_exit (msg : option string) (r : bool) (e : PyVal) (w : World) :
  e <> VBool true -> (forall n, e <> VInt n) ->
  handle_kbi msg r e w = handle_kbi msg r (VBool false) w.
Proof.
  intros Ht Hi. destruct e as [ | [ | ] | n | s | id ]; try reflexivity.
  - now destruct Ht.
  - now destruct (Hi n).
Qed.

(** C2.  When [ask] has caught an interrupt, the policy is decided in this
    order: [exit_on_kbi is True] exits with status 0; otherwise an
    [exit_on_kbi] that is an integer and not a boolean exits with that
    status; otherwise a true [raise_on_kbi] raises the interrupt to the
    caller.  Both exits win over [raise_on_kbi], whatever its value. *)
Theorem C2_interrupt_policy_precedence (w w' : World) (self : nat) (po : bool)
    (msg : option string)
    (Hkbi : unsafe_ask self po w = (Raised KeyboardInterrupt, w')) :
  (forall r, ask self po msg r (VBool true) w = (Raised (SystemExit (VInt 0)), w'))
  /\ (forall r n, ask self po msg r (VInt n) w = (Raised (SystemExit (VInt n)), w'))
  /\ (forall e, e <> VBool true -> (forall n, e <> VInt n) ->
        ask self po msg true e w = (Raised KeyboardInterrupt, w')).
Proof.
  repeat split; intros.
  - rewrite (ask_caught _ _ _ _ _ _ _ Hkbi). apply handle_kbi_exit_True.
  - rewrite (ask_caught _ _ _ _ _ _ _ Hkbi). apply handle_kbi_exit_int.
  - rewrite (ask_caught _ _ _ _ _ _ _ Hkbi).
    rewrite handle_kbi_no_exit by assumption. reflexivity.
Qed.

Lemma C2_witness :
  fst (ask 0 false None true (VBool true) (world_with interrupted_question))
    = Raised (SystemExit (VInt 0))
  /\ fst (ask 0 false None true (VInt 7) (world_with interrupted_question))
    = Raised (SystemExit (VInt 7))
  /\ fst (ask 0 false None true (VBool false) (world_with interrupted_question))
    = Raised KeyboardInterrupt.
Proof.
  pose proof (C2_interrupt_policy_precedence
                (world_with interrupted_question)
                (snd (unsafe_ask 0 false (world_with interrupted_question)))
                0 false None eq_refl) as (H1 & H2 & H3).
  rewrite (H1 true), (H2 true 7), (H3 (VBool false)) by discriminate.
  repeat split.
Defined.

(** ** C3: the default policy *)

Lemma append_assoc (s1 s2 s3 : string) :
  (s1 +:+ s2) +:+ s3 = s1 +:+ (s2 +:+ s3).
Proof.
  induction s1 as [ | c s1 IH ]; [ reflexivity | ].
  change (String c ((s1 +:+ s2) +:+ s3) = String c (s1 +:+ (s2 +:+ s3))).
  now rewrite IH.
Qed.

(** C3 as stated fails: the interrupt message is written once, not twice. *)
Lemma C3_counterexample :
  unsafe_ask 0 false (world_with interrupted_question)
    = (Raised KeyboardInterrupt,
       write_stdout "" (log_event (EvRun 7) (world_with interrupted_question)))
  /\ fst (ask 0 false (Some "Cancelled by user") false (VBool false)
            (world_with interrupted_question)) = Returned VNone
  /\ stdout (snd (ask 0 false (Some "Cancelled by user") false (VBool false)
                    (world_with interrupted_question)))
     = nl +:+ "Cancelled by user" +:+ nl +:+ nl
  /\ occurrences "Cancelled by user"
       (stdout (snd (ask 0 false (Some "Cancelled by user") false (VBool false)
                       (world_with interrupted_question)))) = 1%nat
  /\ occurrences "Cancelled by user"
       (stdout (snd (ask 0 false (Some "Cancelled by user") false (VBool false)
                       (world_with interrupted_question)))) <> 2%nat.
Proof. repeat split. vm_compute. discriminate. Qed.

(** C3, amended.  Under the default policy ([raise_on_kbi] and
    [exit_on_kbi] both [False]) and with a non-empty message, an interrupt
    caught by [ask] writes to standard output a line end, the message once,
    and two line ends (the message with an empty line before and after it),
    and [ask] returns [None] to the caller. *)
Theorem C3_default_policy_prints_once (w w' : World) (self : nat) (po : bool)
    (msg : string)
    (Hmsg : msg <> "")
    (Hkbi : unsafe_ask self po w = (Raised KeyboardInterrupt, w')) :
  ask self po (Some msg) false (VBool false) w
    = (Returned VNone, write_stdout (nl +:+ msg +:+ nl +:+ nl) w')
  /\ stdout (snd (ask self po (Some msg) false (VBool false) w))
     = stdout w' +:+ nl +:+ msg +:+ nl +:+ nl.
Proof.
  rewrite (ask_caught _ _ _ _ _ _ _ Hkbi).
  destruct msg as [ | c rest ]; [ now destruct Hmsg | ].
  unfold handle_kbi, print, modify, bind, ret.
  cbn [is_True isinstance_bool isinstance_int negb andb].
  rewrite !append_assoc. split; reflexivity.
Qed.

Lemma C3_witness :
  ask 0 false (Some "Cancelled by user") false (VBool false)
      (world_with interrupted_question)
  = (Returned VNone,
     write_stdout (nl +:+ "Cancelled by user" +:+ nl +:+ nl)
       (snd (unsafe_ask 0 false (world_with interrupted_question)))).
Proof.
  apply (C3_default_policy_prints_once
           (world_with interrupted_question)
           (snd (unsafe_ask 0 false (world_with interrupted_question)))
           0 false "Cancelled by user").
  - discriminate.
  - reflexivity.
Defined.

(** ** C5 and C10: the skip setter *)

Lemma skip_if_spec (w : World) (self : nat) (q : Question) (c : bool) (d : PyVal) :
  heap w !! self = Some q ->
  skip_if self c d w
    = (Returned self, set_heap (<[self := skipped q c d]> (heap w)) w).
Proof.
  intros Hq. unfold skip_if, bind. rewrite (deref_ok _ _ _ Hq). reflexivity.
Qed.

Lemma skip_if_lookup (w : World) (self : nat) (q : Question) (c : bool) (d : PyVal) :
  heap w !! self = Some q ->
  heap (snd (skip_if self c d w)) !! self = Some (skipped q c d).
Proof.
  intros Hq. rewrite (skip_if_spec _ _ _ _ _ Hq). cbn. apply lookup_insert_eq.
Qed.

Lemma skip_if_trace (w : World) (self : nat) (c : bool) (d : PyVal) :
  trace (snd (skip_if self c d w)) = trace w
  /\ stdout (snd (skip_if self c d w)) = stdout w
  /\ ACTIVATED_ASYNC_MODE (snd (skip_if self c d w)) = ACTIVATED_ASYNC_MODE w.
Proof.
  unfold skip_if, deref, bind, modify, ret.
  destruct (heap w !! self); cbn; auto.
Qed.

Lemma run_count_app (id : nat) (tr1 tr2 : list Event) :
  run_count id (tr1 ++ tr2) = (run_count id tr1 + run_count id tr2)%nat.
Proof. unfold run_count. now rewrite List.filter_app, length_app. Qed.

Lemma run_count_EvRun (id : nat) (tr : list Event) :
  run_count id (tr ++ [EvRun id]) = S (run_count id tr).
Proof.
  rewrite run_count_app. unfold run_count at 2. cbn. rewrite Nat.eqb_refl.
  cbn. lia.
Qed.

Lemma Application_run_trace (app : Application) (w : World) :
  trace (snd (Application_run app w)) = trace w ++ [EvRun (app_id app)].
Proof. unfold Application_run. destruct (run app (trace w)). reflexivity. Qed.

Lemma handle_kbi_trace (msg : option string) (r : bool) (e : PyVal) (w : World) :
  trace (snd (handle_kbi msg r e w)) = trace w
  /\ ACTIVATED_ASYNC_MODE (snd (handle_kbi msg r e w)) = ACTIVATED_ASYNC_MODE w
  /\ heap (snd (handle_kbi msg r e w)) = heap w.
Proof.
  unfold handle_kbi, exit, raise, print, modify, bind, ret.
  destruct (is_True e); [ cbn; auto | ].
  destruct (negb (isinstance_bool e) && isinstance_int e); [ cbn; auto | ].
  destruct r; [ cbn; auto | ].
  destruct msg as [ [ | c s ] | ]; cbn; auto.
Qed.

Lemma ask_trace (w : World) (self : nat) (po : bool) (msg : option string)
    (r : bool) (e : PyVal) :
  trace (snd (ask self po msg r e w)) = trace (snd (unsafe_ask self po w)).
Proof.
  unfold ask, try_except.
  destruct (unsafe_ask self po w) as [[v | x] w']; [ reflexivity | ].
  destruct (is_KeyboardInterrupt x); [ | reflexivity ].
  apply handle_kbi_trace.
Qed.

(** C5.  [skip_if(condition, default)] stores both arguments in the object
    and returns the reference it was called on; a second call overwrites the
    first, so after [skip_if(True, x).skip_if(False, y)] the object does not
    skip: [ask] executes the program once and returns the program's result,
    not [y]. *)
Theorem C5_skip_if_sets_both_last_wins (w : World) (self : nat) (q : Question)
    (Hself : heap w !! self = Some q) :
  (forall c d,
     fst (skip_if self c d w) = Returned self
     /\ heap (snd (skip_if self c d w)) !! self = Some (skipped q c d)
     /\ should_skip_question (skipped q c d) = c
     /\ default (skipped q c d) = d
     /\ application (skipped q c d) = application q)
  /\ (forall c1 d1 c2 d2,
        (do q1 <- skip_if self c1 d1; skip_if q1 c2 d2) w
          = skip_if self c2 d2 w)
  /\ (forall x y msg r e,
        let chained := do q1 <- skip_if self true x; skip_if q1 false y in
        let w2 := snd (chained w) in
        fst (chained w) = Returned self
        /\ unsafe_ask self false w2 = Application_run (application q) w2
        /\ run_count (app_id (application q))
             (trace (snd (ask self false msg r e w2)))
           = S (run_count (app_id (application q)) (trace w))
        /\ forall v w',
             Application_run (application q) w2 = (Returned v, w') ->
             ask self false msg r e w2 = (Returned v, w')).
Proof.
  assert (Hlast : forall c1 d1 c2 d2,
             (do q1 <- skip_if self c1 d1; skip_if q1 c2 d2) w
               = skip_if self c2 d2 w).
  { intros c1 d1 c2 d2. unfold bind at 1.
    rewrite (skip_if_spec _ _ _ c1 d1 Hself).
    erewrite skip_if_spec by (cbn; apply lookup_insert_eq).
    rewrite (skip_if_spec _ _ _ c2 d2 Hself).
    unfold set_heap; cbn. now rewrite insert_insert_eq. }
  split; [ | split ].
  - intros c d. rewrite (skip_if_spec _ _ _ c d Hself). cbn.
    rewrite lookup_insert_eq. auto.
  - exact Hlast.
  - intros x y msg r e chained w2. subst chained w2. rewrite Hlast.
    pose proof (skip_if_lookup w self q false y Hself) as Hq2.
    pose proof (skip_if_trace w self false y) as (Htr & _).
    set (w2 := snd (skip_if self false y w)) in *.
    assert (Hrun : unsafe_ask self false w2 = Application_run (application q) w2).
    { now rewrite (unsafe_ask_run w2 self _ Hq2). }
    repeat split.
    + now rewrite (skip_if_spec _ _ _ false y Hself).
    + exact Hrun.
    + rewrite ask_trace, Hrun, Application_run_trace, Htr.
      apply run_count_EvRun.
    + intros v w' Hv. apply ask_returned. now rewrite Hrun.
Qed.

Lemma C5_witness :
  fst (ask 0 false None false (VBool false)
         (snd ((do q1 <- skip_if 0 true (VStr "X"); skip_if q1 false (VStr "Y"))
                 (world_with plain_question))))
  = Returned (VStr "yes").
Proof.
  pose proof (C5_skip_if_sets_both_last_wins (world_with plain_question) 0
                plain_question eq_refl) as (_ & _ & H).
  destruct (H (VStr "X") (VStr "Y") None false (VBool false)) as (_ & _ & _ & Hv).
  erewrite Hv; reflexivity.
Defined.

(** C10.  [skip_if] stores its [default] argument also when [condition] is
    false; a call without that argument passes [None], which is the default a
    new Question holds; so after [skip_if(True)], [ask] returns [None] and
    the program does not run. *)
Theorem C10_skip_if_overwrites_default (w : World) (self : nat) (q : Question)
    (Hself : heap w !! self = Some q) :
  (forall d,
     heap (snd (skip_if self false d w)) !! self = Some (skipped q false d)
     /\ default (skipped q false d) = d)
  /\ (forall c, call_skip_if self c None = skip_if self c VNone)
  /\ (forall app w0,
        heap (snd (Question_init app w0)) !! (fresh (dom (heap w0)))
          = Some {| application := app;
                    should_skip_question := false;
                    default := VNone |}
        /\ fst (Question_init app w0) = Returned (fresh (dom (heap w0))))
  /\ (forall po msg r e,
        (do q1 <- call_skip_if self true None; ask q1 po msg r e) w
          = (Returned VNone, snd (skip_if self true VNone w))
        /\ trace (snd (skip_if self true VNone w)) = trace w).
Proof.
  repeat split.
  - now apply skip_if_lookup.
  - cbn. apply lookup_insert_eq.
  - unfold call_skip_if, bind.
    rewrite (skip_if_spec _ _ _ true VNone Hself). cbn [snd].
    apply ask_returned.
    apply (unsafe_ask_skip _ self (skipped q true VNone)); [ | reflexivity ].
    cbn. apply lookup_insert_eq.
  - apply skip_if_trace.
Qed.

Lemma C10_witness :
  fst ((do q1 <- call_skip_if 0 true None; ask q1 false None false (VBool false))
         (world_with plain_question))
  = Returned VNone.
Proof.
  pose proof (C10_skip_if_overwrites_default (world_with plain_question) 0
                plain_question eq_refl) as (_ & _ & _ & H).
  destruct (H false None false (VBool false)) as [Ha _].
  rewrite Ha. reflexivity.
Defined.

(** ** C6: what the entry points catch *)

Lemma ask_async_not_caught (w w' : World) (self : nat) (po : bool) (x : PyExc)
    (msg : option string) (r : bool) (e : PyVal) :
  unsafe_ask_async self po (log_event EvFlush w) = (Raised x, w') ->
  is_KeyboardInterrupt x = false ->
  ask_async self po msg r e w = (Raised x, w').
Proof.
  intros H Hx. unfold ask_async, try_except, bind, stdout_flush, modify.
  now rewrite H, Hx.
Qed.

Lemma ask_async_caught (w w' : World) (self : nat) (po : bool)
    (msg : option string) (r : bool) (e : PyVal) :
  unsafe_ask_async self po (log_event EvFlush w) = (Raised KeyboardInterrupt, w') ->
  ask_async self po msg r e w = handle_kbi msg r e w'.
Proof.
  intros H. unfold ask_async, try_except, bind, stdout_flush, modify.
  now rewrite H.
Qed.

(** C6.  [ask] and [ask_async] hand every exception other than the
    interrupt to their caller as it is, with the state the program left;
    the interrupt alone goes to the policy.  [unsafe_ask] is the program's
    run and nothing else, so every exception of the program, the interrupt
    included, reaches the caller of [unsafe_ask]. *)
Theorem C6_only_interrupt_is_caught (w : World) (self : nat) (q : Question)
    (Hself : heap w !! self = Some q)
    (Hskip : should_skip_question q = false) :
  (forall x w' msg r e,
     x <> KeyboardInterrupt ->
     Application_run (application q) w = (Raised x, w') ->
     ask self false msg r e w = (Raised x, w'))
  /\ (forall x w' po msg r e,
        x <> KeyboardInterrupt ->
        (unsafe_ask self po w = (Raised x, w') ->
         ask self po msg r e w = (Raised x, w'))
        /\ (unsafe_ask_async self po (log_event EvFlush w) = (Raised x, w') ->
            ask_async self po msg r e w = (Raised x, w')))
  /\ (forall w' po msg r e,
        (unsafe_ask self po w = (Raised KeyboardInterrupt, w') ->
         ask self po msg r e w = handle_kbi msg r e w')
        /\ (unsafe_ask_async self po (log_event EvFlush w)
              = (Raised KeyboardInterrupt, w') ->
            ask_async self po msg r e w = handle_kbi msg r e w'))
  /\ unsafe_ask self false w = Application_run (application q) w
  /\ unsafe_ask self true w
       = patch_stdout_context (Application_run (application q)) w
  /\ (forall w',
        Application_run (application q) w = (Raised KeyboardInterrupt, w') ->
        unsafe_ask self false w = (Raised KeyboardInterrupt, w')).
Proof.
  assert (Hnot : forall x, x <> KeyboardInterrupt -> is_KeyboardInterrupt x = false).
  { intros [ | c | c ] Hx; [ now destruct Hx | reflexivity | reflexivity ]. }
  pose proof (unsafe_ask_run w self q Hself Hskip) as Hrun.
  split; [ | split; [ | split; [ | split; [ | split ] ] ] ].
  - intros x w' msg r e Hx Hr. rewrite <- Hrun in Hr.
    apply ask_not_caught; [ exact Hr | now apply Hnot ].
  - intros x w' po msg r e Hx. split; intros Hr.
    + apply ask_not_caught; [ exact Hr | now apply Hnot ].
    + apply ask_async_not_caught; [ exact Hr | now apply Hnot ].
  - intros w' po msg r e. split.
    + apply ask_caught.
    + apply ask_async_caught.
  - exact Hrun.
  - now apply unsafe_ask_run_patched.
  - intros w' Hr. now rewrite Hrun.
Qed.

Lemma C6_witness :
  fst (ask 0 false None false (VBool false) (world_with failing_question))
    = Raised (OtherError "ValueError")
  /\ fst (unsafe_ask 0 false (world_with interrupted_question))
    = Raised KeyboardInterrupt.
Proof.
  split.
  - pose proof (C6_only_interrupt_is_caught (world_with failing_question) 0
                  failing_question eq_refl eq_refl) as (H & _).
    erewrite H; [ reflexivity | discriminate | reflexivity ].
  - pose proof (C6_only_interrupt_is_caught (world_with interrupted_question) 0
                  interrupted_question eq_refl eq_refl) as (_ & _ & _ & _ & _ & H).
    erewrite H; reflexivity.
Defined.

(** ** C4: skipping and the call counter *)

Lemma unsafe_ask_async_skip (w : World) (self : nat) (q : Question) (po : bool) :
  heap w !! self = Some q ->
  should_skip_question q = true ->
  unsafe_ask_async self po w = (Returned (default q), w).
Proof.
  intros Hq Hs. unfold unsafe_ask_async, bind. rewrite (deref_ok _ _ _ Hq), Hs.
  reflexivity.
Qed.

Lemma run_count_EvFlush (id : nat) (tr : list Event) :
  run_count id (tr ++ [EvFlush]) = run_count id tr.
Proof. rewrite run_count_app. cbn. lia. Qed.

(** One call that leaves skipping on keeps the object skipping, around the
    same program, and moves no call counter. *)
Lemma perform_keeps_skipping (w : World) (self : nat) (q : Question) (c : Call) :
  heap w !! self = Some q ->
  should_skip_question q = true ->
  reenables c = false ->
  (exists q', heap (perform self c w) !! self = Some q'
              /\ should_skip_question q' = true
              /\ application q' = application q)
  /\ forall id, run_count id (trace (perform self c w)) = run_count id (trace w).
Proof.
  intros Hq Hs Hc.
  destruct c as [po msg r e | po | po msg r e | po | [ | ] d ]; cbn [perform].
  - rewrite (ask_returned _ _ _ _ _ msg r e (unsafe_ask_skip w self q po Hq Hs)).
    cbn. eauto.
  - rewrite (unsafe_ask_skip w self q po Hq Hs). cbn. eauto.
  - unfold ask_async, try_except, bind, stdout_flush, modify.
    rewrite (unsafe_ask_async_skip (log_event EvFlush w) self q po Hq Hs).
    cbn. split; [ eauto | intros id; apply run_count_EvFlush ].
  - rewrite (unsafe_ask_async_skip w self q po Hq Hs). cbn. eauto.
  - split.
    + exists (skipped q true d). rewrite (skip_if_lookup _ _ _ true d Hq). auto.
    + intros id. now destruct (skip_if_trace w self true d) as (-> & _).
  - discriminate.
Qed.

(** C4 as stated fails: a later [skip_if(False, ...)] on the same object
    makes the next [ask] execute the program. *)
Lemma C4_counterexample :
  heap (world_with skipped_question) !! 0%nat = Some skipped_question
  /\ should_skip_question skipped_question = true
  /\ run_count 7 (trace (world_with skipped_question)) = 0%nat
  /\ run_count 7
       (trace (perform_all 0
                 [CallSkipIf false (VStr "Y");
                  CallAsk false None false (VBool false)]
                 (world_with skipped_question))) = 1%nat.
Proof. repeat split. Qed.

(** C4, amended.  Once [skip] is true, no sequence of [ask], [unsafe_ask],
    [ask_async], [unsafe_ask_async] and [skip_if(True, ...)] calls on the
    object executes the wrapped program (or any program), however long the
    sequence; the guarantee ends with a [skip_if] whose condition is false. *)
Theorem C4_skipping_never_runs (cs : list Call) (w : World) (self : nat)
    (q : Question)
    (Hself : heap w !! self = Some q)
    (Hskip : should_skip_question q = true)
    (Hcs : existsb reenables cs = false) :
  forall id,
    run_count id (trace (perform_all self cs w)) = run_count id (trace w).
Proof.
  revert w q Hself Hskip Hcs.
  induction cs as [ | c cs IH ]; intros w q Hself Hskip Hcs id.
  - reflexivity.
  - cbn in Hcs. apply orb_false_elim in Hcs as [Hc Hcs].
    destruct (perform_keeps_skipping w self q c Hself Hskip Hc)
      as [(q' & Hq' & Hs' & _) Hcount].
    cbn [perform_all fold_left].
    change (fold_left (fun w c => perform self c w) cs (perform self c w))
      with (perform_all self cs (perform self c w)).
    rewrite (IH _ q' Hq' Hs' Hcs id). apply Hcount.
Qed.

Lemma C4_witness :
  run_count 7
    (trace (perform_all 0
              [CallAsk false None false (VBool false);
               CallSkipIf true (VStr "again");
               CallAskAsync true None true (VInt 3);
               CallUnsafeAsk true]
              (world_with skipped_question)))
  = run_count 7 (trace (world_with skipped_question)).
Proof.
  apply (C4_skipping_never_runs _ (world_with skipped_question) 0
           skipped_question); reflexivity.
Defined.

(** ** C7 and C8: fitting options to a callable *)

Lemma used_kwargs_lookup (kwargs : gmap string PyVal) (func : Callable) (k : string) :
  used_kwargs kwargs func !! k
    = if decide (k ∈ arguments_of func) then kwargs !! k else None.
Proof.
  unfold used_kwargs. rewrite map_lookup_filter.
  destruct (kwargs !! k) as [v | ] eqn:Hk; cbn.
  - destruct (decide (k ∈ arguments_of func)) as [Hin | Hout].
    + now rewrite option_guard_True.
    + now rewrite option_guard_False.
  - now destruct (decide (k ∈ arguments_of func)).
Qed.

(** C7.  [used_kwargs(kwargs, f)] is [kwargs] restricted to the declared
    parameter names of [f]: a key that is a parameter name keeps its value,
    any other key is absent from the result, and nothing else is in it.
    For [f(a, b)], [{"a": 1, "b": 2, "z": 9}] gives [{"a": 1, "b": 2}]. *)
Theorem C7_used_kwargs_submapping (kwargs : gmap string PyVal) (func : Callable) :
  (forall k v,
     used_kwargs kwargs func !! k = Some v
     <-> kwargs !! k = Some v /\ k ∈ arguments_of func)
  /\ (forall k, k ∉ arguments_of func -> used_kwargs kwargs func !! k = None)
  /\ used_kwargs kwargs func ⊆ kwargs
  /\ used_kwargs {[ "a" := VInt 1; "b" := VInt 2; "z" := VInt 9 ]} f_ab
     = {[ "a" := VInt 1; "b" := VInt 2 ]}.
Proof.
  split; [ | split; [ | split ] ].
  - intros k v. rewrite used_kwargs_lookup.
    destruct (decide (k ∈ arguments_of func)); intuition congruence.
  - intros k Hk. rewrite used_kwargs_lookup.
    now destruct (decide (k ∈ arguments_of func)).
  - apply map_filter_subseteq.
  - apply map_eq. intros k. rewrite used_kwargs_lookup.
    destruct (decide (k ∈ arguments_of f_ab)) as [Hin | Hout].
    + cbn in Hin. apply elem_of_cons in Hin as [-> | Hin]; [ reflexivity | ].
      apply elem_of_cons in Hin as [-> | Hin]; [ reflexivity | ].
      now apply elem_of_nil in Hin.
    + assert (k <> "a" /\ k <> "b") as [Ha Hb].
      { split; intros ->; apply Hout; cbn; set_solver. }
      now rewrite lookup_insert_ne, lookup_singleton_ne by congruence.
Qed.

Lemma C7_witness :
  used_kwargs {[ "a" := VInt 1; "b" := VInt 2; "z" := VInt 9 ]} f_ab !! "z" = None
  /\ used_kwargs {[ "a" := VInt 1; "b" := VInt 2; "z" := VInt 9 ]} f_ab !! "b"
     = Some (VInt 2).
Proof.
  pose proof (C7_used_kwargs_submapping
                {[ "a" := VInt 1; "b" := VInt 2; "z" := VInt 9 ]} f_ab)
    as (Hin & Hout & _).
  split.
  - apply Hout. rewrite list_elem_of_In. cbn. intuition discriminate.
  - apply Hin. split; [ reflexivity | ].
    rewrite list_elem_of_In. cbn. auto.
Defined.

Lemma default_values_le_arguments (func : Callable) :
  (length (default_values_of func) <= length (arguments_of func))%nat.
Proof.
  unfold default_values_of, arguments_of. rewrite !length_map.
  apply List.filter_length_le.
Qed.

Lemma slice_until_neg {A} (l : list A) (n : nat) :
  (0 < n)%nat ->
  slice_until l (- Z.of_nat n) = take (length l - n) l.
Proof.
  intros Hn. unfold slice_until.
  destruct (Z.ltb_spec (- Z.of_nat n) 0) as [ _ | Hge ]; [ | lia ].
  f_equal. lia.
Qed.

Lemma without_trailing_take {A} (n : nat) (l : list A) :
  without_trailing n l = take (length l - n) l.
Proof. unfold without_trailing. now rewrite drop_reverse, reverse_involutive. Qed.

Lemma required_arguments_take (func : Callable) :
  required_arguments func
    = take (length (arguments_of func) - length (default_values_of func))
        (arguments_of func).
Proof.
  unfold required_arguments.
  destruct (default_values_of func) as [ | d ds ] eqn:Hd.
  - cbn [length]. rewrite Nat.sub_0_r. now rewrite firstn_all.
  - apply slice_until_neg. cbn. lia.
Qed.

(** C8.  [required_arguments(f)] is the list of parameter names of [f]
    without its last [len(default_values_of(f))] names, and
    [missing_arguments(f, options)] is the set of required names that are
    not keys of [options].  For [f(a, b)] and [{"a": 1}] it is [{"b"}]. *)
Theorem C8_required_and_missing (func : Callable) (argdict : gmap string PyVal) :
  required_arguments func
    = without_trailing (length (default_values_of func)) (arguments_of func)
  /\ (length (required_arguments func)
      = length (arguments_of func) - length (default_values_of func))%nat
  /\ (forall x,
        x ∈ missing_arguments func argdict
        <-> x ∈ required_arguments func /\ argdict !! x = None)
  /\ required_arguments f_ab = [ "a"; "b" ]
  /\ missing_arguments f_ab {[ "a" := VInt 1 ]} = {[ "b" ]}.
Proof.
  split; [ | split; [ | split; [ | split ] ] ].
  - now rewrite without_trailing_take, required_arguments_take.
  - rewrite required_arguments_take, length_take.
    pose proof (default_values_le_arguments func). lia.
  - intros x. unfold missing_arguments.
    rewrite elem_of_difference, elem_of_list_to_set, not_elem_of_dom.
    reflexivity.
  - reflexivity.
  - unfold missing_arguments.
    change (required_arguments f_ab) with [ "a"; "b" ].
    rewrite dom_singleton_L. set_solver.
Qed.

(** ** C9: the async-mode flag *)

Create HintDb flag.

Lemma keeps_flag_ret {A} (v : A) : keeps_flag (ret v).
Proof. intros w H. exact H. Qed.

Lemma keeps_flag_raise {A} (e : PyExc) : keeps_flag (@raise A e).
Proof. intros w H. exact H. Qed.

Lemma keeps_flag_get {A} (f : World -> A) : keeps_flag (get f).
Proof. intros w H. exact H. Qed.

Lemma keeps_flag_bind {A B} (m : M A) (k : A -> M B) :
  keeps_flag m -> (forall v, keeps_flag (k v)) -> keeps_flag (bind m k).
Proof.
  intros Hm Hk w H. unfold bind. specialize (Hm w H).
  destruct (m w) as [[v | e] w']; cbn in *; [ now apply Hk | exact Hm ].
Qed.

Lemma keeps_flag_try_except {A} (body handler : M A) (caught : PyExc -> bool) :
  keeps_flag body -> keeps_flag handler ->
  keeps_flag (try_except body caught handler).
Proof.
  intros Hb Hh w H. unfold try_except. specialize (Hb w H).
  destruct (body w) as [[v | e] w']; cbn in *; [ exact Hb | ].
  destruct (caught e); [ now apply Hh | exact Hb ].
Qed.

Lemma keeps_flag_with_context {A} (enter leave : Event) (body : M A) :
  keeps_flag body -> keeps_flag (with_context enter leave body).
Proof.
  intros Hb w H. unfold with_context. specialize (Hb (log_event enter w) H).
  now destruct (body (log_event enter w)) as [o w'].
Qed.

Lemma keeps_flag_log (ev : Event) : keeps_flag (modify (log_event ev)).
Proof. intros w H. exact H. Qed.

Lemma keeps_flag_write (s : string) : keeps_flag (modify (write_stdout s)).
Proof. intros w H. exact H. Qed.

Lemma keeps_flag_set_true : keeps_flag (modify (set_flag true)).
Proof. intros w H. reflexivity. Qed.

Lemma keeps_flag_set_heap (f : World -> gmap nat Question) :
  keeps_flag (modify (fun w => set_heap (f w) w)).
Proof. intros w H. exact H. Qed.

Lemma keeps_flag_deref (self : nat) : keeps_flag (deref self).
Proof. intros w H. unfold deref. now destruct (heap w !! self). Qed.

Lemma keeps_flag_Application_run (app : Application) :
  keeps_flag (Application_run app).
Proof. intros w H. unfold Application_run. now destruct (run app (trace w)). Qed.

Lemma keeps_flag_await (r : Application) : keeps_flag (await r).
Proof. intros w H. unfold await. now destruct (run_async r (trace w)). Qed.

#[local] Hint Resolve keeps_flag_ret keeps_flag_raise keeps_flag_get
  keeps_flag_log keeps_flag_write keeps_flag_set_true keeps_flag_set_heap
  keeps_flag_deref keeps_flag_Application_run keeps_flag_await : flag.

Ltac flag_step :=
  match goal with
  | |- keeps_flag (bind _ _) => apply keeps_flag_bind; [ | intros ? ]
  | |- keeps_flag (try_except _ _ _) => apply keeps_flag_try_except
  | |- keeps_flag (with_context _ _ _) => apply keeps_flag_with_context
  | |- keeps_flag (if ?b then _ else _) => destruct b
  | |- keeps_flag (match ?x with _ => _ end) => destruct x
  | |- keeps_flag _ => solve [ auto with flag ]
  end.

Lemma keeps_flag_is_prompt_toolkit_3 : keeps_flag is_prompt_toolkit_3.
Proof. unfold is_prompt_toolkit_3. auto with flag. Qed.

Lemma keeps_flag_activate : keeps_flag activate_prompt_toolkit_async_mode.
Proof.
  unfold activate_prompt_toolkit_async_mode, is_prompt_toolkit_3.
  repeat flag_step.
Qed.

Lemma keeps_flag_handle_kbi (msg : option string) (r : bool) (e : PyVal) :
  keeps_flag (handle_kbi msg r e).
Proof. unfold handle_kbi, exit, print. repeat flag_step. Qed.

Lemma keeps_flag_unsafe_ask (self : nat) (po : bool) :
  keeps_flag (unsafe_ask self po).
Proof. unfold unsafe_ask, patch_stdout_context. repeat flag_step. Qed.

Lemma keeps_flag_unsafe_ask_async (self : nat) (po : bool) :
  keeps_flag (unsafe_ask_async self po).
Proof.
  pose proof keeps_flag_activate.
  unfold unsafe_ask_async, patch_stdout_context, Application_run_async,
    is_prompt_toolkit_3.
  repeat flag_step.
Qed.

Lemma keeps_flag_skip_if (self : nat) (c : bool) (d : PyVal) :
  keeps_flag (skip_if self c d).
Proof. unfold skip_if. repeat flag_step. Qed.

Lemma keeps_flag_perform (self : nat) (c : Call) (w : World) :
  ACTIVATED_ASYNC_MODE w = true ->
  ACTIVATED_ASYNC_MODE (perform self c w) = true.
Proof.
  intros H. destruct c as [po msg r e | po | po msg r e | po | c d ]; cbn [perform].
  - apply (keeps_flag_try_except _ _ _ (keeps_flag_unsafe_ask self po)
             (keeps_flag_handle_kbi msg r e) w H).
  - now apply keeps_flag_unsafe_ask.
  - refine (keeps_flag_try_except _ _ _ _ (keeps_flag_handle_kbi msg r e) w H).
    apply keeps_flag_bind; [ apply keeps_flag_log | intros _ ].
    apply keeps_flag_unsafe_ask_async.
  - now apply keeps_flag_unsafe_ask_async.
  - now apply keeps_flag_skip_if.
Qed.

Lemma step_keeps_flag (op : Operation) (w : World) :
  ACTIVATED_ASYNC_MODE w = true ->
  ACTIVATED_ASYNC_MODE (step op w) = true.
Proof.
  intros H. destruct op as [self c | app | msg r e | | | q a]; cbn [step].
  - now apply keeps_flag_perform.
  - exact H.
  - now apply keeps_flag_handle_kbi.
  - now apply keeps_flag_activate.
  - exact H.
  - exact H.
Qed.

(** The activation step, in one equation. *)
Lemma activate_spec (w : World) :
  activate_prompt_toolkit_async_mode w
    = (Returned VNone,
       set_flag true
         (if String.prefix "3." (ptk_version w)
          then w else log_event EvUseAsyncioEventLoop w)).
Proof.
  unfold activate_prompt_toolkit_async_mode, is_prompt_toolkit_3, bind, get,
    modify, ret.
  now destruct (String.prefix "3." (ptk_version w)).
Qed.

Lemma unsafe_ask_async_run (w : World) (self : nat) (q : Question) (po : bool) :
  heap w !! self = Some q ->
  should_skip_question q = false ->
  unsafe_ask_async self po w = await (application q) (before_await q po w).
Proof.
  intros Hq Hs. unfold unsafe_ask_async, bind at 1.
  rewrite (deref_ok _ _ _ Hq), Hs. unfold before_await.
  unfold bind at 1. unfold get at 1.
  destruct (ACTIVATED_ASYNC_MODE w) eqn:Hflag; cbn [negb].
  - unfold bind, ret, patch_stdout_context, with_context, Application_run_async,
      is_prompt_toolkit_3, modify, get, to_asyncio_future.
    destruct po; cbn; now destruct (String.prefix "3." (ptk_version w)).
  - unfold bind at 1. rewrite activate_spec. cbn [snd].
    unfold bind, ret, patch_stdout_context, with_context, Application_run_async,
      is_prompt_toolkit_3, modify, get, to_asyncio_future.
    destruct (String.prefix "3." (ptk_version w)) eqn:Hv, po; cbn;
      rewrite Hv; reflexivity.
Qed.

Lemma activations_app (tr1 tr2 : list Event) :
  activations (tr1 ++ tr2) = (activations tr1 + activations tr2)%nat.
Proof. unfold activations. now rewrite List.filter_app, length_app. Qed.

Lemma await_observed (r : Application) (w : World) :
  ACTIVATED_ASYNC_MODE (snd (await r w)) = ACTIVATED_ASYNC_MODE w
  /\ activations (trace (snd (await r w))) = activations (trace w).
Proof.
  unfold await. destruct (run_async r (trace w)) as [o out].
  cbn [snd write_stdout log_event trace ACTIVATED_ASYNC_MODE].
  rewrite activations_app. cbn. split; [ reflexivity | lia ].
Qed.

Lemma before_await_observed (q : Question) (po : bool) (w : World) :
  ACTIVATED_ASYNC_MODE (before_await q po w) = true
  /\ activations (trace (before_await q po w))
     = (activations (trace w)
        + if ACTIVATED_ASYNC_MODE w then 0
          else if String.prefix "3." (ptk_version w) then 0 else 1)%nat.
Proof.
  unfold before_await. rewrite activate_spec.
  destruct (ACTIVATED_ASYNC_MODE w) eqn:Hflag, po,
    (String.prefix "3." (ptk_version w));
    cbn [snd set_flag log_event trace ACTIVATED_ASYNC_MODE];
    rewrite ?activations_app; cbn;
    split; try reflexivity; try exact Hflag; lia.
Qed.

(** C9 as stated fails twice.  An asynchronous ask of a skipped question
    runs with the flag unset and leaves it unset; and on an engine older
    than 3 two activation steps in a row call [use_asyncio_event_loop]
    twice, so the second step repeats a side effect of the first. *)
Lemma C9_counterexample :
  (ACTIVATED_ASYNC_MODE world_ptk2_skipped = false
   /\ fst (ask_async 0 false None false (VBool false) world_ptk2_skipped)
      = Returned (VStr "fallback")
   /\ ACTIVATED_ASYNC_MODE
        (snd (ask_async 0 false None false (VBool false) world_ptk2_skipped))
      = false
   /\ ACTIVATED_ASYNC_MODE (snd (unsafe_ask_async 0 false world_ptk2_skipped))
      = false)
  /\ (trace (snd (activate_prompt_toolkit_async_mode world_ptk2))
      = [EvUseAsyncioEventLoop]
      /\ trace (snd (activate_prompt_toolkit_async_mode
                       (snd (activate_prompt_toolkit_async_mode world_ptk2))))
         = [EvUseAsyncioEventLoop; EvUseAsyncioEventLoop]
      /\ activations
           (trace (snd (activate_prompt_toolkit_async_mode
                          (snd (activate_prompt_toolkit_async_mode world_ptk2)))))
         = 2%nat
      /\ snd (activate_prompt_toolkit_async_mode
                (snd (activate_prompt_toolkit_async_mode world_ptk2)))
         <> snd (activate_prompt_toolkit_async_mode world_ptk2)).
Proof.
  split; [ repeat split | ].
  split; [ reflexivity | ]. split; [ reflexivity | ]. split; [ reflexivity | ].
  intros H. apply (f_equal (fun w => length (trace w))) in H. discriminate H.
Qed.

(** C9, amended.  The flag is false in a fresh process.  An asynchronous ask
    of a question that is not skipped sets it: if the flag is unset the ask
    is the activation step followed by the ask, and if it is set the hook is
    not called again.  An asynchronous ask of a skipped question returns the
    default before the flag is looked at and leaves it as it was.  No
    operation of the package turns a set flag off.  Two activation steps in
    a row both return without an error and leave the flag set; neither
    touches the Questions or standard output; on prompt_toolkit 3 the second
    step changes nothing, and on an older engine every step calls
    [use_asyncio_event_loop] once more, since the test of the flag is in
    [unsafe_ask_async] and not in the activation step. *)
Theorem C9_async_flag_is_a_latch :
  (forall version, ACTIVATED_ASYNC_MODE (initial_world version) = false)
  /\ (forall w self q po,
        heap w !! self = Some q ->
        should_skip_question q = false ->
        ACTIVATED_ASYNC_MODE (snd (unsafe_ask_async self po w)) = true
        /\ (forall msg r e,
              ACTIVATED_ASYNC_MODE (snd (ask_async self po msg r e w)) = true)
        /\ (ACTIVATED_ASYNC_MODE w = false ->
            unsafe_ask_async self po w
              = unsafe_ask_async self po
                  (snd (activate_prompt_toolkit_async_mode w)))
        /\ (ACTIVATED_ASYNC_MODE w = true ->
            activations (trace (snd (unsafe_ask_async self po w)))
              = activations (trace w)))
  /\ (forall w self q po,
        heap w !! self = Some q ->
        should_skip_question q = true ->
        unsafe_ask_async self po w = (Returned (default q), w)
        /\ forall msg r e,
             ACTIVATED_ASYNC_MODE (snd (ask_async self po msg r e w))
             = ACTIVATED_ASYNC_MODE w)
  /\ (forall op w,
        ACTIVATED_ASYNC_MODE w = true ->
        ACTIVATED_ASYNC_MODE (step op w) = true)
  /\ (forall w,
        let w1 := snd (activate_prompt_toolkit_async_mode w) in
        let w2 := snd (activate_prompt_toolkit_async_mode w1) in
        fst (activate_prompt_toolkit_async_mode w) = Returned VNone
        /\ fst (activate_prompt_toolkit_async_mode w1) = Returned VNone
        /\ ACTIVATED_ASYNC_MODE w1 = true
        /\ ACTIVATED_ASYNC_MODE w2 = true
        /\ (ptk_version w2, heap w2, stdout w2) = (ptk_version w1, heap w1, stdout w1)
        /\ (ptk_version w1, heap w1, stdout w1) = (ptk_version w, heap w, stdout w)
        /\ (String.prefix "3." (ptk_version w) = true ->
            trace w1 = trace w /\ w2 = w1)
        /\ (String.prefix "3." (ptk_version w) = false ->
            trace w1 = trace w ++ [EvUseAsyncioEventLoop]
            /\ trace w2 = trace w1 ++ [EvUseAsyncioEventLoop]
            /\ activations (trace w2) = S (S (activations (trace w))))).
Proof.
  split; [ | split; [ | split; [ | split ] ] ].
  - reflexivity.
  - intros w self q po Hq Hs.
    assert (Hset : forall w0, heap w0 !! self = Some q ->
              ACTIVATED_ASYNC_MODE (snd (unsafe_ask_async self po w0)) = true).
    { intros w0 Hq0. rewrite (unsafe_ask_async_run _ _ _ _ Hq0 Hs).
      destruct (await_observed (application q) (before_await q po w0)) as [-> _].
      apply before_await_observed. }
    split; [ now apply Hset | split; [ | split ] ].
    + intros msg r e.
      unfold ask_async, try_except, bind at 1, stdout_flush, modify.
      specialize (Hset (log_event EvFlush w) Hq).
      destruct (unsafe_ask_async self po (log_event EvFlush w)) as [[v | x] w1];
        cbn [snd] in *; [ exact Hset | ].
      destruct (is_KeyboardInterrupt x); [ | exact Hset ].
      now apply keeps_flag_handle_kbi.
    + intros Hflag.
      rewrite (unsafe_ask_async_run w _ _ _ Hq Hs).
      rewrite (unsafe_ask_async_run _ self q po); [ | | exact Hs ].
      * f_equal. unfold before_await. rewrite Hflag.
        rewrite !activate_spec. reflexivity.
      * rewrite activate_spec. cbn.
        now destruct (String.prefix "3." (ptk_version w)).
    + intros Hflag. rewrite (unsafe_ask_async_run _ _ _ _ Hq Hs).
      destruct (await_observed (application q) (before_await q po w)) as [_ ->].
      destruct (before_await_observed q po w) as [_ ->]. rewrite Hflag. lia.
  - intros w self q po Hq Hs.
    split; [ now apply unsafe_ask_async_skip | ].
    intros msg r e.
    unfold ask_async, try_except, bind, stdout_flush, modify.
    now rewrite (unsafe_ask_async_skip (log_event EvFlush w) self q po Hq Hs).
  - apply step_keeps_flag.
  - intros w w1 w2. subst w1 w2. rewrite !activate_spec. cbn [fst snd].
    destruct (String.prefix "3." (ptk_version w)) eqn:Hv;
      cbn [set_flag log_event ptk_version heap stdout trace ACTIVATED_ASYNC_MODE];
      rewrite ?Hv;
      cbn [set_flag log_event ptk_version heap stdout trace ACTIVATED_ASYNC_MODE].
    + repeat split; auto; discriminate.
    + repeat split; try discriminate.
      rewrite !activations_app. cbn. lia.
Qed.

Lemma C8_witness :
  "b" ∈ missing_arguments f_ab {[ "a" := VInt 1 ]}
  /\ required_arguments g_mixed = [ "a" ].
Proof.
  pose proof (C8_required_and_missing f_ab {[ "a" := VInt 1 ]})
    as (_ & _ & Hmiss & _).
  split.
  - apply Hmiss. split; [ | reflexivity ].
    rewrite list_elem_of_In. cbn. auto.
  - pose proof (C8_required_and_missing g_mixed ∅) as (-> & _). reflexivity.
Defined.

Lemma C9_witness :
  ACTIVATED_ASYNC_MODE world_ptk2 = false
  /\ ACTIVATED_ASYNC_MODE (snd (unsafe_ask_async 0 true world_ptk2)) = true
  /\ ACTIVATED_ASYNC_MODE
       (step (OpMethod 0 (CallAsk false None false (VBool false)))
          (snd (unsafe_ask_async 0 true world_ptk2))) = true
  /\ unsafe_ask_async 0 false world_ptk2_skipped
     = (Returned (VStr "fallback"), world_ptk2_skipped)
  /\ activations
       (trace (snd (activate_prompt_toolkit_async_mode
                      (snd (activate_prompt_toolkit_async_mode world_ptk2)))))
     = 2%nat
  /\ snd (activate_prompt_toolkit_async_mode
            (snd (activate_prompt_toolkit_async_mode (initial_world "3.0.36"))))
     = snd (activate_prompt_toolkit_async_mode (initial_world "3.0.36")).
Proof.
  pose proof C9_async_flag_is_a_latch as (_ & Hask & Hskipped & Hstep & Htwice).
  destruct (Hask world_ptk2 0%nat plain_question true eq_refl eq_refl)
    as (Hset & _).
  destruct (Hskipped world_ptk2_skipped 0%nat skipped_question false
              eq_refl eq_refl) as (Hdefault & _).
  split; [ reflexivity | split; [ exact Hset | split; [ | split; [ | split ] ] ] ].
  - apply Hstep. exact Hset.
  - exact Hdefault.
  - destruct (Htwice world_ptk2) as (_ & _ & _ & _ & _ & _ & _ & Hold).
    destruct (Hold eq_refl) as (_ & _ & Hcount). exact Hcount.
  - destruct (Htwice (initial_world "3.0.36")) as (_ & _ & _ & _ & _ & _ & Hnew & _).
    destruct (Hnew eq_refl) as (_ & Hsame). exact Hsame.
Defined.

(** * Further properties of the code *)

(** ** Interrupts *)

Lemma handle_kbi_swallow (msg : option string) (e : PyVal) (w : World) :
  e <> VBool true -> (forall n, e <> VInt n) ->
  handle_kbi msg false e w
    = (Returned VNone,
       match msg with
       | Some (String _ _ as m) => write_stdout (nl +:+ m +:+ nl +:+ nl) w
       | _ => w
       end).
Proof.
  intros Ht Hi. rewrite handle_kbi_no_exit by assumption.
  unfold handle_kbi, print, modify, bind, ret.
  cbn [is_True isinstance_bool isinstance_int negb andb].
  destruct msg as [ [ | c s ] | ]; try reflexivity.
  now rewrite !append_assoc.
Qed.

(** X1.  An interrupt caught by [ask] with no message to print ([kbi_msg]
    is [None] or the empty string), no raise and an [exit_on_kbi] that is
    neither [True] nor an integer is swallowed in silence: [ask] returns
    [None] and the process is in the state the interrupted program left. *)
Theorem X1_interrupt_without_message_is_silent (w w' : World) (self : nat)
    (po : bool) (msg : option string) (e : PyVal)
    (Hmsg : msg = None \/ msg = Some "")
    (Hexit : e <> VBool true /\ forall n, e <> VInt n)
    (Hkbi : unsafe_ask self po w = (Raised KeyboardInterrupt, w')) :
  ask self po msg false e w = (Returned VNone, w').
Proof.
  destruct Hexit as [Ht Hi].
  rewrite (ask_caught _ _ _ _ _ _ _ Hkbi), handle_kbi_swallow by assumption.
  now destruct Hmsg as [-> | ->].
Qed.

Lemma X1_witness :
  ask 0 false (Some "") false VNone (world_with interrupted_question)
  = (Returned VNone, snd (unsafe_ask 0 false (world_with interrupted_question))).
Proof.
  apply (X1_interrupt_without_message_is_silent
           (world_with interrupted_question) _ 0 false (Some "") VNone).
  - now right.
  - split; [ discriminate | intros n; discriminate ].
  - reflexivity.
Defined.

Lemma handle_kbi_no_raise (msg : option string) (e : PyVal) (w : World) :
  fst (handle_kbi msg false e w) <> Raised KeyboardInterrupt.
Proof.
  unfold handle_kbi, exit, raise, bind.
  destruct (is_True e); [ discriminate | ].
  destruct (negb (isinstance_bool e) && isinstance_int e); [ discriminate | ].
  destruct msg as [ [ | c s ] | ]; discriminate.
Qed.

Lemma try_except_interrupt {A} (body handler : M A) (w : World) :
  fst (try_except body is_KeyboardInterrupt handler w) = Raised KeyboardInterrupt ->
  fst (body w) = Raised KeyboardInterrupt
  /\ fst (handler (snd (body w))) = Raised KeyboardInterrupt.
Proof.
  unfold try_except. destruct (body w) as [[v | x] w1]; cbn; [ discriminate | ].
  destruct x; cbn; intros H; try discriminate. auto.
Qed.

(** X2.  With [raise_on_kbi] false no [KeyboardInterrupt] leaves [ask] or
    [ask_async], whatever the program, the message and [exit_on_kbi] are;
    and when one does leave [ask], the caller had set [raise_on_kbi] and the
    program was interrupted. *)
Theorem X2_interrupt_escapes_only_on_request (w : World) (self : nat)
    (po : bool) (msg : option string) (e : PyVal) :
  fst (ask self po msg false e w) <> Raised KeyboardInterrupt
  /\ fst (ask_async self po msg false e w) <> Raised KeyboardInterrupt
  /\ forall r,
       fst (ask self po msg r e w) = Raised KeyboardInterrupt ->
       r = true /\ fst (unsafe_ask self po w) = Raised KeyboardInterrupt.
Proof.
  split; [ | split ].
  - intros H. apply try_except_interrupt in H as [_ H].
    now apply handle_kbi_no_raise in H.
  - intros H. apply try_except_interrupt in H as [_ H].
    now apply handle_kbi_no_raise in H.
  - intros r H. apply try_except_interrupt in H as [Hb Hh]. split; [ | exact Hb ].
    destruct r; [ reflexivity | ]. now apply handle_kbi_no_raise in Hh.
Qed.

Lemma X2_witness :
  true = true
  /\ fst (unsafe_ask 0 false (world_with interrupted_question))
     = Raised KeyboardInterrupt.
Proof.
  destruct (X2_interrupt_escapes_only_on_request
              (world_with interrupted_question) 0 false None (VBool false))
    as (_ & _ & H).
  apply (H true). reflexivity.
Defined.

(** X3.  [ask_async] resolves a caught interrupt by the same policy as
    [ask]: [exit_on_kbi is True] exits with 0 and an integer exits with that
    status, both whatever [raise_on_kbi] is; otherwise [raise_on_kbi] raises
    the interrupt; otherwise the message, if there is one, is printed once
    between empty lines and [None] is returned. *)
Theorem X3_ask_async_interrupt_policy (w w' : World) (self : nat) (po : bool)
    (msg : option string)
    (Hkbi : unsafe_ask_async self po (log_event EvFlush w)
              = (Raised KeyboardInterrupt, w')) :
  (forall r, ask_async self po msg r (VBool true) w
             = (Raised (SystemExit (VInt 0)), w'))
  /\ (forall r n, ask_async self po msg r (VInt n) w
                  = (Raised (SystemExit (VInt n)), w'))
  /\ (forall e, e <> VBool true -> (forall n, e <> VInt n) ->
        ask_async self po msg true e w = (Raised KeyboardInterrupt, w')
        /\ ask_async self po msg false e w
           = (Returned VNone,
              match msg with
              | Some (String _ _ as m) => write_stdout (nl +:+ m +:+ nl +:+ nl) w'
              | _ => w'
              end)).
Proof.
  split; [ | split ].
  - intros r. now rewrite (ask_async_caught _ _ _ _ _ _ _ Hkbi).
  - intros r n. now rewrite (ask_async_caught _ _ _ _ _ _ _ Hkbi).
  - intros e Ht Hi. rewrite !(ask_async_caught _ _ _ _ _ _ _ Hkbi). split.
    + now rewrite handle_kbi_no_exit by assumption.
    + now apply handle_kbi_swallow.
Qed.

Lemma X3_witness :
  fst (ask_async 0 true (Some "Cancelled by user") true (VInt 7)
         (world_with interrupted_question))
  = Raised (SystemExit (VInt 7)).
Proof.
  destruct (X3_ask_async_interrupt_policy
              (world_with interrupted_question)
              (snd (unsafe_ask_async 0 true
                      (log_event EvFlush (world_with interrupted_question))))
              0 true (Some "Cancelled by user") eq_refl) as (_ & H & _).
  now rewrite (H true 7).
Defined.

(** X4.  A skipped question asked asynchronously returns its default
    without activating async mode: [unsafe_ask_async] changes nothing, and
    [ask_async] only flushes standard output; the flag stays as it was, the
    engine hook is not called and no program runs. *)
Theorem X4_skipped_async_ask_does_not_activate (w : World) (self : nat)
    (q : Question) (po : bool) (msg : option string) (r : bool) (e : PyVal)
    (Hself : heap w !! self = Some q)
    (Hskip : should_skip_question q = true) :
  unsafe_ask_async self po w = (Returned (default q), w)
  /\ ask_async self po msg r e w = (Returned (default q), log_event EvFlush w)
  /\ ACTIVATED_ASYNC_MODE (snd (ask_async self po msg r e w))
     = ACTIVATED_ASYNC_MODE w
  /\ activations (trace (snd (ask_async self po msg r e w)))
     = activations (trace w)
  /\ forall id, run_count id (trace (snd (ask_async self po msg r e w)))
                = run_count id (trace w).
Proof.
  pose proof (unsafe_ask_async_skip w self q po Hself Hskip) as Hu.
  assert (Ha : ask_async self po msg r e w
               = (Returned (default q), log_event EvFlush w)).
  { unfold ask_async, try_except, bind, stdout_flush, modify.
    now rewrite (unsafe_ask_async_skip (log_event EvFlush w) self q po Hself Hskip). }
  rewrite Ha. cbn [snd log_event trace ACTIVATED_ASYNC_MODE].
  repeat split; try assumption.
  - rewrite activations_app. cbn. lia.
  - intros id. apply run_count_EvFlush.
Qed.

Lemma X4_witness :
  ask_async 0 true None false (VBool false)
    (set_heap {[ 0%nat := skipped_question ]} (initial_world "2.0.10"))
  = (Returned (VStr "fallback"),
     log_event EvFlush
       (set_heap {[ 0%nat := skipped_question ]} (initial_world "2.0.10"))).
Proof.
  apply (X4_skipped_async_ask_does_not_activate
           (set_heap {[ 0%nat := skipped_question ]} (initial_world "2.0.10"))
           0 skipped_question true None false (VBool false));
    reflexivity.
Defined.

Lemma handle_kbi_outcome (msg : option string) (r : bool) (e : PyVal) (w : World) :
  match fst (handle_kbi msg r e w) with
  | Returned v => v = VNone /\ r = false /\ e <> VBool true /\ forall n, e <> VInt n
  | Raised KeyboardInterrupt => r = true /\ e <> VBool true /\ forall n, e <> VInt n
  | Raised (SystemExit c) =>
      (e = VBool true /\ c = VInt 0) \/ (exists n, e = VInt n /\ c = VInt n)
  | Raised (OtherError _) => False
  end.
Proof.
  destruct e as [ | [ | ] | n | s | id ]; cbn; eauto;
    destruct r; cbn; repeat split; try discriminate;
    destruct msg as [ [ | c s' ] | ]; cbn; repeat split; discriminate.
Qed.

Lemma try_except_cases {A} (body handler : M A) (w : World) :
  fst (try_except body is_KeyboardInterrupt handler w) = fst (body w)
  /\ fst (body w) <> Raised KeyboardInterrupt
  \/ fst (body w) = Raised KeyboardInterrupt
     /\ fst (try_except body is_KeyboardInterrupt handler w)
        = fst (handler (snd (body w))).
Proof.
  unfold try_except. destruct (body w) as [[v | x] w1]; cbn.
  - left. split; [ reflexivity | discriminate ].
  - destruct x; cbn; auto; left; split; try reflexivity; discriminate.
Qed.

(** X16.  A value returned by [ask] or [ask_async] is the value the
    unsafe variant returned (the program's result or the stored default),
    or it is [None] after an interrupt that was swallowed, which needs
    [raise_on_kbi] to be false.  A swallowed interrupt never produces
    another value. *)
Theorem X16_ask_returns_the_answer_or_None (w : World) (self : nat) (po : bool)
    (msg : option string) (r : bool) (e v : PyVal) :
  (fst (ask self po msg r e w) = Returned v ->
   fst (unsafe_ask self po w) = Returned v
   \/ (v = VNone /\ r = false
       /\ fst (unsafe_ask self po w) = Raised KeyboardInterrupt))
  /\ (fst (ask_async self po msg r e w) = Returned v ->
      fst (unsafe_ask_async self po (log_event EvFlush w)) = Returned v
      \/ (v = VNone /\ r = false
          /\ fst (unsafe_ask_async self po (log_event EvFlush w))
             = Raised KeyboardInterrupt)).
Proof.
  split; intros H.
  - destruct (try_except_cases (unsafe_ask self po)
                (handle_kbi msg r e) w) as [[Heq _] | [Hk Heq]];
      fold (ask self po msg r e) in Heq; rewrite Heq in H.
    + now left.
    + right. pose proof (handle_kbi_outcome msg r e (snd (unsafe_ask self po w)))
        as Ho.
      rewrite H in Ho. tauto.
  - assert (Hb : forall w0,
               (exec stdout_flush; unsafe_ask_async self po) w0
               = unsafe_ask_async self po (log_event EvFlush w0))
      by reflexivity.
    destruct (try_except_cases (exec stdout_flush; unsafe_ask_async self po)
                (handle_kbi msg r e) w) as [[Heq _] | [Hk Heq]];
      fold (ask_async self po msg r e) in Heq; rewrite Heq, ?Hb in H;
      rewrite ?Hb in *.
    + now left.
    + right.
      pose proof (handle_kbi_outcome msg r e
                    (snd (unsafe_ask_async self po (log_event EvFlush w)))) as Ho.
      rewrite H in Ho. tauto.
Qed.

Lemma X16_witness :
  fst (unsafe_ask 0 false (world_with plain_question)) = Returned (VStr "yes")
  \/ (VStr "yes" = VNone /\ false = false
      /\ fst (unsafe_ask 0 false (world_with plain_question))
         = Raised KeyboardInterrupt).
Proof.
  destruct (X16_ask_returns_the_answer_or_None (world_with plain_question)
              0 false None false (VBool false) (VStr "yes")) as [H _].
  apply H. reflexivity.
Defined.

(** X17.  [ask] ends the process only on request: a [SystemExit] that
    leaves [ask] was raised by the program itself, or the program was
    interrupted and [exit_on_kbi] is [True] (status 0) or an integer (that
    status).  With [exit_on_kbi] left at [False], an interrupt never exits. *)
Theorem X17_ask_exits_only_on_request (w : World) (self : nat) (po : bool)
    (msg : option string) (r : bool) (e c : PyVal)
    (Hexit : fst (ask self po msg r e w) = Raised (SystemExit c)) :
  fst (unsafe_ask self po w) = Raised (SystemExit c)
  \/ (fst (unsafe_ask self po w) = Raised KeyboardInterrupt
      /\ ((e = VBool true /\ c = VInt 0) \/ exists n, e = VInt n /\ c = VInt n)).
Proof.
  destruct (try_except_cases (unsafe_ask self po)
              (handle_kbi msg r e) w) as [[Heq _] | [Hk Heq]];
    fold (ask self po msg r e) in Heq; rewrite Heq in Hexit.
  - now left.
  - right. split; [ exact Hk | ].
    pose proof (handle_kbi_outcome msg r e (snd (unsafe_ask self po w))) as Ho.
    now rewrite Hexit in Ho.
Qed.

Lemma X17_witness :
  fst (unsafe_ask 0 false (world_with interrupted_question))
    = Raised (SystemExit (VInt 3))
  \/ (fst (unsafe_ask 0 false (world_with interrupted_question))
        = Raised KeyboardInterrupt
      /\ ((VInt 3 = VBool true /\ VInt 3 = VInt 0)
          \/ exists n, VInt 3 = VInt n /\ VInt 3 = VInt n)).
Proof.
  apply (X17_ask_exits_only_on_request (world_with interrupted_question)
           0 false None true (VInt 3) (VInt 3)).
  reflexivity.
Defined.

(** ** What asking leaves alone *)

Lemma preserves_ret {A B} (f : World -> B) (v : A) : preserves f (ret v).
Proof. intros w. reflexivity. Qed.

Lemma preserves_bind {A A' B} (f : World -> B) (m : M A) (k : A -> M A') :
  preserves f m -> (forall v, preserves f (k v)) -> preserves f (bind m k).
Proof.
  intros Hm Hk w. unfold bind. specialize (Hm w).
  destruct (m w) as [[v | x] w1]; cbn in *; [ | exact Hm ].
  now rewrite Hk.
Qed.

Lemma preserves_try_except {A B} (f : World -> B) (body handler : M A)
    (caught : PyExc -> bool) :
  preserves f body -> preserves f handler ->
  preserves f (try_except body caught handler).
Proof.
  intros Hb Hh w. unfold try_except. specialize (Hb w).
  destruct (body w) as [[v | x] w1]; cbn in *; [ exact Hb | ].
  destruct (caught x); [ | exact Hb ]. now rewrite Hh.
Qed.

Lemma preserves_deref {B} (f : World -> B) (self : nat) : preserves f (deref self).
Proof. intros w. unfold deref. now destruct (heap w !! self). Qed.

Section Preserved.

Context {B : Type} (f : World -> B).
Hypothesis f_log :
  forall ev w, ev <> EvUseAsyncioEventLoop -> f (log_event ev w) = f w.
Hypothesis f_write : forall s w, f (write_stdout s w) = f w.

Lemma preserves_Application_run (app : Application) :
  preserves f (Application_run app).
Proof.
  intros w. unfold Application_run. destruct (run app (trace w)) as [o out].
  cbn [snd]. now rewrite f_write, f_log.
Qed.

Lemma preserves_await (r : Application) : preserves f (await r).
Proof.
  intros w. unfold await. destruct (run_async r (trace w)) as [o out].
  cbn [snd]. now rewrite f_write, f_log.
Qed.

Lemma preserves_handle_kbi (msg : option string) (r : bool) (e : PyVal) :
  preserves f (handle_kbi msg r e).
Proof.
  intros w. unfold handle_kbi, exit, raise, print, modify, bind, ret.
  destruct (is_True e); [ reflexivity | ].
  destruct (negb (isinstance_bool e) && isinstance_int e); [ reflexivity | ].
  destruct r; [ reflexivity | ].
  destruct msg as [ [ | c s ] | ]; cbn [snd]; auto.
Qed.

Lemma preserves_unsafe_ask (self : nat) (po : bool) :
  preserves f (unsafe_ask self po).
Proof.
  unfold unsafe_ask. apply preserves_bind; [ apply preserves_deref | intros q ].
  destruct (should_skip_question q); [ apply preserves_ret | ].
  destruct po; [ | apply preserves_Application_run ].
  intros w. unfold patch_stdout_context, with_context.
  pose proof (preserves_Application_run (application q) (log_event EvPatchEnter w))
    as Hrun.
  destruct (Application_run (application q) (log_event EvPatchEnter w)) as [o w1].
  cbn [snd] in *. now rewrite f_log, Hrun, f_log.
Qed.

Lemma preserves_ask (self : nat) (po : bool) (msg : option string) (r : bool)
    (e : PyVal) :
  preserves f (ask self po msg r e).
Proof.
  apply preserves_try_except;
    [ apply preserves_unsafe_ask | apply preserves_handle_kbi ].
Qed.

End Preserved.

Lemma heap_log_event (ev : Event) (w : World) :
  ev <> EvUseAsyncioEventLoop -> heap (log_event ev w) = heap w.
Proof. reflexivity. Qed.

Lemma heap_write_stdout (s : string) (w : World) :
  heap (write_stdout s w) = heap w.
Proof. reflexivity. Qed.

Lemma unsafe_ask_async_heap (self : nat) (po : bool) (w : World) :
  heap (snd (unsafe_ask_async self po w)) = heap w.
Proof.
  destruct (heap w !! self) as [q | ] eqn:Hq.
  - destruct (should_skip_question q) eqn:Hs.
    + now rewrite (unsafe_ask_async_skip _ _ _ _ Hq Hs).
    + rewrite (unsafe_ask_async_run _ _ _ _ Hq Hs).
      rewrite (preserves_await heap heap_log_event heap_write_stdout).
      unfold before_await. rewrite activate_spec.
      now destruct (ACTIVATED_ASYNC_MODE w), po,
        (String.prefix "3." (ptk_version w)).
  - unfold unsafe_ask_async, bind, deref. now rewrite Hq.
Qed.

Lemma perform_ask_heap (self : nat) (c : Call) (w : World) :
  is_skip_if c = false -> heap (perform self c w) = heap w.
Proof.
  intros Hc. destruct c as [po msg r e | po | po msg r e | po | c d ];
    cbn [perform]; [ | | | | discriminate ].
  - apply (preserves_ask heap heap_log_event heap_write_stdout).
  - apply (preserves_unsafe_ask heap heap_log_event heap_write_stdout).
  - unfold ask_async, try_except, bind, stdout_flush, modify.
    pose proof (unsafe_ask_async_heap self po (log_event EvFlush w)) as Hu.
    destruct (unsafe_ask_async self po (log_event EvFlush w)) as [[v | x] w1];
      cbn [snd] in *; [ exact Hu | ].
    destruct (is_KeyboardInterrupt x); [ | exact Hu ].
    now rewrite (preserves_handle_kbi heap heap_write_stdout).
  - apply unsafe_ask_async_heap.
Qed.

(** X8.  Asking never changes a Question: after any sequence of [ask],
    [unsafe_ask], [ask_async] and [unsafe_ask_async] calls, on any objects
    and with any outcomes, every object of the store holds the program, the
    skip flag and the default it held before. *)
Theorem X8_asking_keeps_every_question (cs : list (nat * Call)) (w : World)
    (Hcs : forallb (fun sc => negb (is_skip_if (snd sc))) cs = true) :
  heap (perform_each cs w) = heap w.
Proof.
  revert w. induction cs as [ | [self c] cs IH ]; intros w; [ reflexivity | ].
  cbn in Hcs. apply andb_prop in Hcs as [Hc Hcs].
  unfold perform_each in *. cbn [fold_left fst snd].
  rewrite (IH Hcs). apply perform_ask_heap. now destruct (is_skip_if c).
Qed.

Lemma X8_witness :
  heap (perform_each
          [ (1%nat, CallAsk true (Some "Cancelled by user") false (VBool false));
            (0%nat, CallAskAsync false None false (VBool false));
            (1%nat, CallUnsafeAskAsync true) ]
          world_two)
  = heap world_two.
Proof.
  apply (X8_asking_keeps_every_question _ world_two). reflexivity.
Defined.

(** ** What asking does to the engine *)

Lemma trace_snoc3 (tr : list Event) (a b c : Event) :
  ((tr ++ [a]) ++ [b]) ++ [c] = tr ++ [a; b; c].
Proof. now rewrite <- !app_assoc. Qed.

(** X5.  A question that is not skipped runs its program exactly once per
    synchronous ask; with [patch_stdout] the run is bracketed by entering
    and leaving the output patch, and the patch is left again whether the
    program returns or raises, also when [ask] goes on to handle an
    interrupt.  The program sees the patch as entered when it starts. *)
Theorem X5_patch_stdout_brackets_the_run (w : World) (self : nat) (q : Question)
    (msg : option string) (r : bool) (e : PyVal)
    (Hself : heap w !! self = Some q)
    (Hskip : should_skip_question q = false) :
  let id := app_id (application q) in
  trace (snd (unsafe_ask self true w))
    = trace w ++ [EvPatchEnter; EvRun id; EvPatchExit]
  /\ trace (snd (ask self true msg r e w))
     = trace w ++ [EvPatchEnter; EvRun id; EvPatchExit]
  /\ fst (unsafe_ask self true w)
     = fst (run (application q) (trace w ++ [EvPatchEnter]))
  /\ trace (snd (ask self false msg r e w)) = trace w ++ [EvRun id]
  /\ fst (unsafe_ask self false w) = fst (run (application q) (trace w)).
Proof.
  intros id.
  assert (Hp : trace (snd (unsafe_ask self true w))
               = trace w ++ [EvPatchEnter; EvRun id; EvPatchExit]
               /\ fst (unsafe_ask self true w)
                  = fst (run (application q) (trace w ++ [EvPatchEnter]))).
  { rewrite (unsafe_ask_run_patched _ _ _ Hself Hskip).
    unfold patch_stdout_context, with_context, Application_run.
    cbn [log_event trace].
    destruct (run (application q) (trace w ++ [EvPatchEnter])) as [o out].
    cbn. now rewrite trace_snoc3. }
  destruct Hp as [Hp1 Hp2].
  assert (Hn : trace (snd (unsafe_ask self false w)) = trace w ++ [EvRun id]
               /\ fst (unsafe_ask self false w)
                  = fst (run (application q) (trace w))).
  { rewrite (unsafe_ask_run _ _ _ Hself Hskip). unfold Application_run.
    now destruct (run (application q) (trace w)) as [o out]. }
  destruct Hn as [Hn1 Hn2].
  rewrite !ask_trace. auto.
Qed.

Lemma X5_witness :
  trace (snd (ask 0 true None true (VBool false)
                (world_with interrupted_question)))
  = [EvPatchEnter; EvRun 7; EvPatchExit].
Proof.
  destruct (X5_patch_stdout_brackets_the_run
              (world_with interrupted_question) 0 interrupted_question
              None true (VBool false) eq_refl eq_refl) as (_ & H & _).
  exact H.
Defined.

(** X6.  An asynchronous ask of a question that is not skipped calls the
    engine in this order: the activation hook if the flag is unset and the
    engine is older than 3, then [run_async], then the await.  With
    [patch_stdout] only the call of [run_async] is inside the output patch:
    the patch is left before the program is awaited.  The flag is set
    afterwards. *)
Theorem X6_async_ask_order (w : World) (self : nat) (q : Question) (po : bool)
    (Hself : heap w !! self = Some q)
    (Hskip : should_skip_question q = false) :
  let id := app_id (application q) in
  let started :=
    if po then [EvPatchEnter; EvRunAsync id; EvPatchExit] else [EvRunAsync id] in
  trace (snd (unsafe_ask_async self po w))
    = trace w ++ activation_events w ++ started ++ [EvAwait id]
  /\ fst (unsafe_ask_async self po w)
     = fst (run_async (application q) (trace w ++ activation_events w ++ started))
  /\ ACTIVATED_ASYNC_MODE (snd (unsafe_ask_async self po w)) = true.
Proof.
  intros id started. subst started.
  rewrite (unsafe_ask_async_run _ _ _ _ Hself Hskip).
  assert (Hb : trace (before_await q po w)
               = trace w ++ activation_events w
                   ++ (if po then [EvPatchEnter; EvRunAsync id; EvPatchExit]
                       else [EvRunAsync id])
               /\ ACTIVATED_ASYNC_MODE (before_await q po w) = true).
  { unfold before_await, activation_events. rewrite activate_spec.
    destruct (ACTIVATED_ASYNC_MODE w) eqn:Hflag, po,
      (String.prefix "3." (ptk_version w));
      cbn [snd set_flag log_event trace ACTIVATED_ASYNC_MODE];
      rewrite <- ?app_assoc; cbn [app]; auto. }
  destruct Hb as [Htr Hflag].
  unfold await. rewrite Htr.
  destruct (run_async (application q) _) as [o out].
  cbn [fst snd write_stdout log_event trace ACTIVATED_ASYNC_MODE].
  rewrite Htr, <- !app_assoc. auto.
Qed.

Lemma X6_witness :
  trace (snd (unsafe_ask_async 0 true world_ptk2))
  = [EvUseAsyncioEventLoop; EvPatchEnter; EvRunAsync 7; EvPatchExit; EvAwait 7].
Proof.
  destruct (X6_async_ask_order world_ptk2 0 plain_question true
              eq_refl eq_refl) as (H & _).
  exact H.
Defined.

Lemma run_count_quiet (id : nat) (tr : list Event) (ev : Event) :
  executes id ev = false -> run_count id (tr ++ [ev]) = run_count id tr.
Proof.
  intros H. rewrite run_count_app. unfold run_count at 2. cbn. rewrite H.
  cbn. lia.
Qed.

Lemma sync_ask_runs_once (w : World) (self : nat) (q : Question) (c : Call) :
  heap w !! self = Some q ->
  should_skip_question q = false ->
  is_sync_ask c = true ->
  run_count (app_id (application q)) (trace (perform self c w))
  = S (run_count (app_id (application q)) (trace w)).
Proof.
  intros Hq Hs Hc.
  assert (Hu : forall po,
             run_count (app_id (application q)) (trace (snd (unsafe_ask self po w)))
             = S (run_count (app_id (application q)) (trace w))).
  { intros [ | ].
    - rewrite (unsafe_ask_run_patched _ _ _ Hq Hs).
      unfold patch_stdout_context, with_context.
      pose proof (Application_run_trace (application q)
                    (log_event EvPatchEnter w)) as Ht.
      destruct (Application_run (application q) (log_event EvPatchEnter w))
        as [o w1].
      cbn [snd log_event trace] in *. rewrite Ht.
      rewrite run_count_quiet by reflexivity.
      rewrite run_count_EvRun. f_equal. now apply run_count_quiet.
    - rewrite (unsafe_ask_run _ _ _ Hq Hs), Application_run_trace.
      apply run_count_EvRun. }
  destruct c as [po msg r e | po | po msg r e | po | c d ];
    try discriminate; cbn [perform].
  - rewrite ask_trace. apply Hu.
  - apply Hu.
Qed.

(** X7.  Asking again executes the program again: on a question that is
    not skipped, every synchronous ask runs the wrapped program once more,
    whatever the earlier asks returned or raised, so [n] asks run it [n]
    times. *)
Theorem X7_every_ask_runs_the_program (cs : list Call) (w : World) (self : nat)
    (q : Question)
    (Hself : heap w !! self = Some q)
    (Hskip : should_skip_question q = false)
    (Hcs : forallb is_sync_ask cs = true) :
  run_count (app_id (application q)) (trace (perform_all self cs w))
  = (run_count (app_id (application q)) (trace w) + length cs)%nat.
Proof.
  revert w Hself. induction cs as [ | c cs IH ]; intros w Hself.
  - cbn. lia.
  - cbn in Hcs. apply andb_prop in Hcs as [Hc Hcs].
    unfold perform_all in *. cbn [fold_left length].
    rewrite (IH Hcs).
    + rewrite (sync_ask_runs_once w self q c Hself Hskip Hc). lia.
    + rewrite perform_ask_heap; [ exact Hself | ].
      now destruct c.
Qed.

Lemma X7_witness :
  run_count 7
    (trace (perform_all 0
              [ CallAsk false None false (VBool false);
                CallUnsafeAsk true;
                CallAsk true (Some "Cancelled by user") true (VInt 2) ]
              (world_with interrupted_question)))
  = (run_count 7 (trace (world_with interrupted_question)) + 3)%nat.
Proof.
  exact (X7_every_ask_runs_the_program
           [ CallAsk false None false (VBool false);
             CallUnsafeAsk true;
             CallAsk true (Some "Cancelled by user") true (VInt 2) ]
           (world_with interrupted_question) 0 interrupted_question
           eq_refl eq_refl eq_refl).
Defined.

(** ** The store *)

(** X9.  [skip_if] changes the object it is called on and nothing else: the
    other Questions of the store keep their state, nothing is printed, the
    engine is not called, the async flag is untouched, and asking another
    Question gives what it gave before. *)
Theorem X9_skip_if_touches_one_object (w : World) (self : nat) (q : Question)
    (c : bool) (d : PyVal)
    (Hself : heap w !! self = Some q) :
  let w' := snd (skip_if self c d w) in
  (forall other, other <> self -> heap w' !! other = heap w !! other)
  /\ trace w' = trace w
  /\ stdout w' = stdout w
  /\ ACTIVATED_ASYNC_MODE w' = ACTIVATED_ASYNC_MODE w
  /\ forall other po,
       other <> self ->
       fst (unsafe_ask other po w') = fst (unsafe_ask other po w)
       /\ trace (snd (unsafe_ask other po w')) = trace (snd (unsafe_ask other po w)).
Proof.
  intros w'. subst w'.
  destruct (skip_if_trace w self c d) as (Ht & Hs & Hf).
  assert (Hframe : forall other, other <> self ->
            heap (snd (skip_if self c d w)) !! other = heap w !! other).
  { intros other Hne. rewrite (skip_if_spec _ _ _ c d Hself). cbn.
    now apply lookup_insert_ne. }
  repeat split; try assumption.
  - unfold unsafe_ask, bind, deref. rewrite (Hframe other) by assumption.
    destruct (heap w !! other) as [q' | ]; [ | reflexivity ].
    destruct (should_skip_question q'); [ reflexivity | ].
    unfold patch_stdout_context, with_context, Application_run.
    destruct po; cbn [log_event trace]; rewrite Ht;
      now destruct (run (application q') _).
  - unfold unsafe_ask, bind, deref. rewrite (Hframe other) by assumption.
    destruct (heap w !! other) as [q' | ]; [ | exact Ht ].
    destruct (should_skip_question q'); [ exact Ht | ].
    unfold patch_stdout_context, with_context, Application_run.
    destruct po; cbn [log_event trace]; rewrite Ht;
      destruct (run (application q') _); cbn; now rewrite Ht.
Qed.

Lemma X9_witness :
  fst (unsafe_ask 1 false (snd (skip_if 0 false (VStr "other") world_two)))
  = fst (unsafe_ask 1 false world_two).
Proof.
  destruct (X9_skip_if_touches_one_object world_two 0 skipped_question
              false (VStr "other") eq_refl) as (_ & _ & _ & _ & H).
  apply (H 1%nat false). discriminate.
Defined.

(** X10.  [Question(application)] makes a new object: its reference was not
    in use, every Question that existed keeps its state, nothing is printed
    and the engine is not called.  Asked at once, the new Question runs its
    program, with the history so far, and returns or raises what the program
    does. *)
Theorem X10_init_allocates_a_new_question (app : Application) (w : World) :
  let self := fresh (dom (heap w)) in
  let w' := snd (Question_init app w) in
  heap w !! self = None
  /\ (forall other q, heap w !! other = Some q -> heap w' !! other = Some q)
  /\ trace w' = trace w
  /\ stdout w' = stdout w
  /\ ACTIVATED_ASYNC_MODE w' = ACTIVATED_ASYNC_MODE w
  /\ fst ((do q <- Question_init app; unsafe_ask q false) w)
     = fst (run app (trace w))
  /\ trace (snd ((do q <- Question_init app; unsafe_ask q false) w))
     = trace w ++ [EvRun (app_id app)].
Proof.
  intros self w'. subst self w'.
  assert (Hfresh : heap w !! fresh (dom (heap w)) = None).
  { apply not_elem_of_dom, is_fresh. }
  split; [ exact Hfresh | ].
  split.
  { intros other q Hq. cbn. rewrite lookup_insert_ne; [ exact Hq | ].
    intros <-. congruence. }
  repeat split.
  - unfold bind at 1. unfold Question_init.
    erewrite unsafe_ask_run;
      [ | cbn [heap set_heap]; apply lookup_insert_eq | reflexivity ].
    unfold Application_run. cbn [application trace set_heap].
    now destruct (run app (trace w)).
  - unfold bind at 1. unfold Question_init.
    erewrite unsafe_ask_run;
      [ | cbn [heap set_heap]; apply lookup_insert_eq | reflexivity ].
    now rewrite Application_run_trace.
Qed.

Lemma X10_witness :
  heap (snd (Question_init (stub_app 9 (Returned VNone) "") world_two)) !! 1%nat
  = Some interrupted_question.
Proof.
  destruct (X10_init_allocates_a_new_question
              (stub_app 9 (Returned VNone) "") world_two) as (_ & H & _).
  apply H. reflexivity.
Defined.

(** ** Activation through the ask path *)

Lemma activations_quiet (ev : Event) (w : World) :
  ev <> EvUseAsyncioEventLoop ->
  (activations (trace (log_event ev w)), ACTIVATED_ASYNC_MODE (log_event ev w))
  = (activations (trace w), ACTIVATED_ASYNC_MODE w).
Proof.
  intros Hev. cbn [log_event trace ACTIVATED_ASYNC_MODE].
  rewrite activations_app. destruct ev; try congruence; cbn; f_equal; lia.
Qed.

Lemma activations_write (s : string) (w : World) :
  (activations (trace (write_stdout s w)), ACTIVATED_ASYNC_MODE (write_stdout s w))
  = (activations (trace w), ACTIVATED_ASYNC_MODE w).
Proof. reflexivity. Qed.

Lemma unsafe_ask_async_once (self : nat) (po : bool) (w : World) :
  activated_at_most_once w ->
  activated_at_most_once (snd (unsafe_ask_async self po w)).
Proof.
  intros Hw. destruct (heap w !! self) as [q | ] eqn:Hq.
  - destruct (should_skip_question q) eqn:Hs.
    + now rewrite (unsafe_ask_async_skip _ _ _ _ Hq Hs).
    + rewrite (unsafe_ask_async_run _ _ _ _ Hq Hs).
      unfold activated_at_most_once in *.
      destruct (await_observed (application q) (before_await q po w)) as [-> ->].
      destruct (before_await_observed q po w) as [-> ->].
      destruct (ACTIVATED_ASYNC_MODE w);
        [ lia | destruct (String.prefix "3." (ptk_version w)); lia ].
  - unfold unsafe_ask_async, bind, deref. now rewrite Hq.
Qed.

Lemma observed_once (w w' : World) :
  (activations (trace w'), ACTIVATED_ASYNC_MODE w')
  = (activations (trace w), ACTIVATED_ASYNC_MODE w) ->
  activated_at_most_once w -> activated_at_most_once w'.
Proof. unfold activated_at_most_once. intros [= -> ->]. auto. Qed.

Lemma perform_once (self : nat) (c : Call) (w : World) :
  activated_at_most_once w -> activated_at_most_once (perform self c w).
Proof.
  intros Hw. destruct c as [po msg r e | po | po msg r e | po | c d ];
    cbn [perform].
  - eapply observed_once; [ | exact Hw ].
    apply (preserves_ask _ activations_quiet activations_write).
  - eapply observed_once; [ | exact Hw ].
    apply (preserves_unsafe_ask _ activations_quiet activations_write).
  - unfold ask_async, try_except, bind, stdout_flush, modify.
    assert (Hf : activated_at_most_once (log_event EvFlush w)).
    { eapply observed_once; [ | exact Hw ]. now apply activations_quiet. }
    pose proof (unsafe_ask_async_once self po _ Hf) as Hu.
    destruct (unsafe_ask_async self po (log_event EvFlush w)) as [[v | x] w1];
      cbn [snd] in *; [ exact Hu | ].
    destruct (is_KeyboardInterrupt x); [ | exact Hu ].
    eapply observed_once; [ | exact Hu ].
    apply (preserves_handle_kbi _ activations_write).
  - now apply unsafe_ask_async_once.
  - destruct (skip_if_trace w self c d) as (Ht & _ & Hf).
    eapply observed_once; [ | exact Hw ]. now rewrite Ht, Hf.
Qed.

(** X11.  Through the methods of Question the engine hook
    [use_asyncio_event_loop] is called at most once in the life of a
    process: starting with the flag unset and no call made, after any
    sequence of asks (synchronous or not) and [skip_if] calls on any objects
    the hook has been called at most once, and not at all unless the flag
    is set. *)
Theorem X11_hook_called_at_most_once (cs : list (nat * Call)) (w : World)
    (Hw : activated_at_most_once w) :
  activated_at_most_once (perform_each cs w)
  /\ (activations (trace (perform_each cs w)) <= 1)%nat
  /\ (ACTIVATED_ASYNC_MODE (perform_each cs w) = false ->
      activations (trace (perform_each cs w)) = 0%nat).
Proof.
  assert (H : activated_at_most_once (perform_each cs w)).
  { revert w Hw. induction cs as [ | [self c] cs IH ]; intros w Hw;
      [ exact Hw | ].
    unfold perform_each in *. cbn [fold_left fst snd].
    apply IH. now apply perform_once. }
  split; [ exact H | ]. unfold activated_at_most_once in H.
  destruct (ACTIVATED_ASYNC_MODE (perform_each cs w)); split;
    solve [ lia | discriminate ].
Qed.

Lemma X11_witness :
  (activations
     (trace (perform_each
               [ (0%nat, CallAskAsync false None false (VBool false));
                 (0%nat, CallUnsafeAskAsync true);
                 (0%nat, CallAskAsync true None true (VBool false)) ]
               world_ptk2)) <= 1)%nat.
Proof.
  apply (X11_hook_called_at_most_once _ world_ptk2).
  unfold activated_at_most_once. cbn. lia.
Defined.

(** ** More on fitting options to a callable *)

Lemma used_kwargs_dom (kwargs : gmap string PyVal) (func : Callable) :
  dom (used_kwargs kwargs func)
  = dom kwargs ∩ (list_to_set (arguments_of func) : gset string).
Proof.
  apply set_eq. intros k.
  rewrite elem_of_intersection, !elem_of_dom, elem_of_list_to_set,
    used_kwargs_lookup.
  destruct (decide (k ∈ arguments_of func)) as [Hin | Hout].
  - tauto.
  - split; [ intros [v Hv]; discriminate | tauto ].
Qed.

(** X12.  Filtering options is a restriction of the option bag to the
    parameter names: its keys are the keys that are parameter names;
    filtering twice for the same callable is filtering once; filtering for
    two callables does not depend on the order; a bag that holds parameter
    names only comes back as it is; and a callable without parameters
    accepts nothing. *)
Theorem X12_used_kwargs_is_a_restriction (kwargs : gmap string PyVal)
    (f g : Callable) :
  dom (used_kwargs kwargs f)
    = dom kwargs ∩ (list_to_set (arguments_of f) : gset string)
  /\ used_kwargs (used_kwargs kwargs f) f = used_kwargs kwargs f
  /\ used_kwargs (used_kwargs kwargs f) g = used_kwargs (used_kwargs kwargs g) f
  /\ ((forall k, is_Some (kwargs !! k) -> k ∈ arguments_of f) ->
      used_kwargs kwargs f = kwargs)
  /\ used_kwargs kwargs [] = ∅.
Proof.
  split; [ apply used_kwargs_dom | ].
  split; [ | split; [ | split ] ].
  - apply map_eq. intros k. rewrite !used_kwargs_lookup.
    now destruct (decide (k ∈ arguments_of f)).
  - apply map_eq. intros k. rewrite !used_kwargs_lookup.
    now destruct (decide (k ∈ arguments_of f)), (decide (k ∈ arguments_of g)).
  - intros Hall. apply map_eq. intros k. rewrite used_kwargs_lookup.
    destruct (decide (k ∈ arguments_of f)) as [Hin | Hout]; [ reflexivity | ].
    destruct (kwargs !! k) as [v | ] eqn:Hk; [ | reflexivity ].
    destruct Hout. apply Hall. rewrite Hk. eauto.
  - apply map_eq. intros k. rewrite used_kwargs_lookup, lookup_empty.
    destruct (decide (k ∈ arguments_of [])) as [Hin | Hout]; [ | reflexivity ].
    now apply elem_of_nil in Hin.
Qed.

Lemma X12_witness :
  used_kwargs {[ "b" := VInt 2 ]} f_ab = {[ "b" := VInt 2 ]}.
Proof.
  destruct (X12_used_kwargs_is_a_restriction {[ "b" := VInt 2 ]} f_ab f_ab)
    as (_ & _ & _ & H & _).
  apply H. intros k [v Hv].
  apply lookup_singleton_Some in Hv as [<- _].
  rewrite list_elem_of_In. cbn. auto.
Defined.

Lemma required_are_arguments (func : Callable) (x : string) :
  x ∈ required_arguments func -> x ∈ arguments_of func.
Proof. rewrite required_arguments_take. apply subseteq_take. Qed.

Lemma elem_of_missing (func : Callable) (argdict : gmap string PyVal) (x : string) :
  x ∈ missing_arguments func argdict
  <-> x ∈ required_arguments func /\ argdict !! x = None.
Proof.
  unfold missing_arguments.
  now rewrite elem_of_difference, elem_of_list_to_set, not_elem_of_dom.
Qed.

(** X13.  Dropping the options a callable does not accept never changes
    which of its required arguments are missing. *)
Theorem X13_filtering_keeps_what_is_missing (kwargs : gmap string PyVal)
    (func : Callable) :
  missing_arguments func (used_kwargs kwargs func)
  = missing_arguments func kwargs.
Proof.
  apply set_eq. intros x. rewrite !elem_of_missing, used_kwargs_lookup.
  destruct (decide (x ∈ arguments_of func)) as [Hin | Hout]; [ reflexivity | ].
  split; intros [Hreq Hx]; destruct Hout; now apply required_are_arguments.
Qed.

(** X14.  Nothing is missing exactly when every required argument is a key
    of the options; with no options every required argument is missing; and
    supplying one more option removes that name, and only that name, from
    what is missing. *)
Theorem X14_missing_arguments_and_supply (func : Callable)
    (argdict : gmap string PyVal) :
  (missing_arguments func argdict = ∅
   <-> forall x, x ∈ required_arguments func -> is_Some (argdict !! x))
  /\ missing_arguments func ∅ = list_to_set (required_arguments func)
  /\ forall k v,
       missing_arguments func (<[k := v]> argdict)
       = missing_arguments func argdict ∖ {[ k ]}.
Proof.
  split; [ | split ].
  - split.
    + intros Hempty x Hx.
      destruct (argdict !! x) as [v | ] eqn:Hk; [ eauto | ].
      assert (Hin : x ∈ missing_arguments func argdict)
        by now apply elem_of_missing.
      rewrite Hempty in Hin. now apply not_elem_of_empty in Hin.
    + intros Hall. apply set_eq. intros x. rewrite elem_of_missing.
      split; [ | intros Hin; now apply not_elem_of_empty in Hin ].
      intros [Hreq Hnone]. destruct (Hall x Hreq) as [v Hv]. congruence.
  - apply set_eq. intros x.
    rewrite elem_of_missing, elem_of_list_to_set, lookup_empty. tauto.
  - intros k v. apply set_eq. intros x.
    rewrite elem_of_difference, !elem_of_missing, elem_of_singleton.
    destruct (decide (k = x)) as [-> | Hne].
    + rewrite lookup_insert_eq. split; [ intros [_ H]; discriminate | tauto ].
    + rewrite lookup_insert_ne by assumption.
      split; [ intros [H1 H2]; repeat split; auto | tauto ].
Qed.

Lemma X14_witness :
  is_Some (({[ "a" := VInt 1; "b" := VNone ]} : gmap string PyVal) !! "b").
Proof.
  destruct (X14_missing_arguments_and_supply f_ab
              {[ "a" := VInt 1; "b" := VNone ]}) as ((H & _) & _).
  apply H.
  - apply set_eq. intros x. rewrite elem_of_missing.
    split; [ | intros Hin; now apply not_elem_of_empty in Hin ].
    intros [Hreq Hnone]. exfalso.
    apply list_elem_of_In in Hreq. cbn in Hreq.
    destruct Hreq as [<- | [<- | []]]; discriminate.
  - rewrite list_elem_of_In. cbn. auto.
Defined.

Lemma filter_none {A} (p : A -> bool) (l : list A) :
  forallb (fun x => negb (p x)) l = true -> List.filter p l = [].
Proof.
  induction l as [ | a l IH ]; [ reflexivity | ]. cbn.
  intros [Ha Hl]%andb_prop. destruct (p a); [ discriminate | now apply IH ].
Qed.

Lemma filter_all {A} (p : A -> bool) (l : list A) :
  forallb p l = true -> List.filter p l = l.
Proof.
  induction l as [ | a l IH ]; [ reflexivity | ]. cbn.
  intros [Ha Hl]%andb_prop. rewrite Ha. f_equal. now apply IH.
Qed.

(** X15.  For a signature written in the usual order, first the
    positional-or-keyword parameters without a default and then only
    parameters that have a default or are of another kind,
    [required_arguments] is exactly the names of the first group and
    [default_values_of] exactly the names of the second. *)
Theorem X15_required_of_conventional_signature (req opt : Callable)
    (Hreq : forallb (fun v => negb (counts_as_defaulted v)) req = true)
    (Hopt : forallb counts_as_defaulted opt = true) :
  default_values_of (req ++ opt) = map inspect.name opt
  /\ required_arguments (req ++ opt) = map inspect.name req.
Proof.
  assert (Hd : default_values_of (req ++ opt) = map inspect.name opt).
  { unfold default_values_of.
    change (fun v : inspect.Param => _) with counts_as_defaulted.
    rewrite List.filter_app, (filter_none _ _ Hreq), (filter_all _ _ Hopt).
    reflexivity. }
  split; [ exact Hd | ].
  rewrite required_arguments_take, Hd. unfold arguments_of.
  rewrite map_app. apply take_app_length'.
  rewrite length_app, !length_map. lia.
Qed.

Lemma X15_witness :
  required_arguments g_mixed = [ "a" ].
Proof.
  apply (X15_required_of_conventional_signature
           [ {| inspect.name := "a"; inspect.default := None;
                inspect.kind := inspect.POSITIONAL_OR_KEYWORD |} ]
           [ {| inspect.name := "b"; inspect.default := Some (VInt 2);
                inspect.kind := inspect.POSITIONAL_OR_KEYWORD |};
             {| inspect.name := "args"; inspect.default := None;
                inspect.kind := inspect.VAR_POSITIONAL |};
             {| inspect.name := "c"; inspect.default := None;
                inspect.kind := inspect.KEYWORD_ONLY |};
             {| inspect.name := "kw"; inspect.default := None;
                inspect.kind := inspect.VAR_KEYWORD |} ]);
    reflexivity.
Defined.

(** ** The embedding at work *)

(** A Question built by [__init__] around a program that is interrupted the
    first time: the first [ask] prints the message and returns [None], the
    second executes the program again and returns its answer. *)
Example ask_twice_after_interrupt :
  let script :=
    do q <- Question_init (flaky_app 3 (VStr "blue"));
    do first <- ask q false (Some "Cancelled by user") false (VBool false);
    do second <- ask q false (Some "Cancelled by user") false (VBool false);
    ret (first, second) in
  fst (script (initial_world "3.0.36")) = Returned (VNone, VStr "blue")
  /\ trace (snd (script (initial_world "3.0.36"))) = [EvRun 3; EvRun 3]
  /\ stdout (snd (script (initial_world "3.0.36")))
     = nl +:+ "Cancelled by user" +:+ nl +:+ nl.
Proof. repeat split. Qed.

(** The asynchronous path on prompt_toolkit 2, with [patch_stdout]: flush,
    activation, the patched call of [run_async], then the await. *)
Example ask_async_trace :
  trace (snd (ask_async 0 true None false (VBool false) world_ptk2))
  = [EvFlush; EvUseAsyncioEventLoop; EvPatchEnter; EvRunAsync 7; EvPatchExit;
     EvAwait 7].
Proof. reflexivity. Qed.

(** Parameters with a default or of another kind than positional-or-keyword
    count as defaulted: of [g(a, b=2, *args, c, **kw)] only [a] is required,
    although [c] has no default. *)
Example required_arguments_mixed :
  default_values_of g_mixed = [ "b"; "args"; "c"; "kw" ]
  /\ required_arguments g_mixed = [ "a" ].
Proof. split; reflexivity. Qed.
